(** * Smart Bot Stats API (api.py): a shallow embedding and its properties

    The service answers four GET endpoints by querying three MongoDB
    collections and reshaping the records into JSON.  The embedding keeps the
    shape of the Python source:

    - BSON documents are finite maps from field names to values;
    - [datetime] is a point on the proleptic Gregorian time line, in
      microseconds, with the calendar fields computed the way CPython's
      [datetime] module computes them;
    - every handler is a computation in a state-and-exception monad over a
      [World] that holds the clock, the collections, the log and the
      commands sent to the database clients;
    - the [try ... except Exception] boundary of each handler is the
      combinator [guard_handler]. *)

From Stdlib Require Import Ascii.
From stdpp Require Import base numbers strings list gmap fin_maps pretty.

Local Open Scope string_scope.
Local Open Scope Z_scope.

(** ** Dates and times *)

Module Datetime.

(** A naive [datetime]: microseconds elapsed since 0001-01-01T00:00:00.
    This is the scale on which Python compares datetimes and on which
    [timedelta] arithmetic works. *)
Record datetime := mk_datetime { micros : Z }.

Record timedelta := mk_timedelta { td_micros : Z }.

Definition US_PER_SECOND : Z := 1000000.
Definition US_PER_DAY : Z := 86400 * US_PER_SECOND.

(** [timedelta(days=n)] and [timedelta(weeks=n)]. *)
Definition td_days (n : Z) : timedelta := mk_timedelta (n * US_PER_DAY).
Definition td_weeks (n : Z) : timedelta := td_days (7 * n).

(** [date.max.toordinal()]: the last representable day is 9999-12-31. *)
Definition MAXORDINAL : Z := 3652059.

Definition in_range (us : Z) : bool :=
  (0 <=? us) && (us <? MAXORDINAL * US_PER_DAY).

(** [d - td]; Python raises [OverflowError] when the result leaves
    years 1..9999, which is [None] here. *)
Definition sub (d : datetime) (td : timedelta) : option datetime :=
  let us := micros d - td_micros td in
  if in_range us then Some (mk_datetime us) else None.

(** The BSON encoding of a date: whole milliseconds, the microseconds
    below a millisecond dropped. *)
Definition bson_millis (d : datetime) : Z := micros d / 1000.

(** *** Calendar fields (CPython's [_ord2ymd]) *)

Definition DI400Y : Z := 146097.
Definition DI100Y : Z := 36524.
Definition DI4Y : Z := 1461.

Definition DAYS_IN_MONTH (m : Z) : Z :=
  match m with
  | 1 => 31 | 2 => 28 | 3 => 31 | 4 => 30 | 5 => 31 | 6 => 30
  | 7 => 31 | 8 => 31 | 9 => 30 | 10 => 31 | 11 => 30 | 12 => 31
  | _ => 0
  end.

Definition DAYS_BEFORE_MONTH (m : Z) : Z :=
  match m with
  | 1 => 0 | 2 => 31 | 3 => 59 | 4 => 90 | 5 => 120 | 6 => 151
  | 7 => 181 | 8 => 212 | 9 => 243 | 10 => 273 | 11 => 304 | 12 => 334
  | _ => 0
  end.

Definition Z_of_bool (b : bool) : Z := if b then 1 else 0.

(** Ordinal (0001-01-01 is day 1) to (year, month, day). *)
Definition ord2ymd (ordinal : Z) : Z * Z * Z :=
  let n := ordinal - 1 in
  let n400 := n / DI400Y in
  let n := n mod DI400Y in
  let year := n400 * 400 + 1 in
  let n100 := n / DI100Y in
  let n := n mod DI100Y in
  let n4 := n / DI4Y in
  let n := n mod DI4Y in
  let n1 := n / 365 in
  let n := n mod 365 in
  let year := year + n100 * 100 + n4 * 4 + n1 in
  if (n1 =? 4) || (n100 =? 4) then (year - 1, 12, 31)
  else
    let leapyear := (n1 =? 3) && (negb (n4 =? 24) || (n100 =? 3)) in
    let month := Z.shiftr (n + 50) 5 in
    let preceding :=
      DAYS_BEFORE_MONTH month + Z_of_bool ((2 <? month) && leapyear) in
    if n <? preceding then
      let month := month - 1 in
      let preceding :=
        preceding
        - (DAYS_IN_MONTH month + Z_of_bool ((month =? 2) && leapyear)) in
      (year, month, n - preceding + 1)
    else (year, month, n - preceding + 1).

Definition ordinal (d : datetime) : Z := micros d / US_PER_DAY + 1.
Definition year (d : datetime) : Z := (ord2ymd (ordinal d)).1.1.
Definition month (d : datetime) : Z := (ord2ymd (ordinal d)).1.2.
Definition day (d : datetime) : Z := (ord2ymd (ordinal d)).2.
Definition hour (d : datetime) : Z := (micros d mod US_PER_DAY) / (3600 * US_PER_SECOND).
Definition minute (d : datetime) : Z := (micros d / (60 * US_PER_SECOND)) mod 60.
Definition second (d : datetime) : Z := (micros d / US_PER_SECOND) mod 60.
Definition microsecond (d : datetime) : Z := micros d mod US_PER_SECOND.

(** *** Formatting *)

Definition digit (n : Z) : ascii := ascii_of_nat (48 + Z.to_nat (n mod 10)).

(** ["%0wd" % n] for [0 <= n < 10^w]: the [w] low decimal digits. *)
Fixpoint zpad (w : nat) (n : Z) (acc : string) : string :=
  match w with
  | O => acc
  | S w' => zpad w' (n / 10) (String (digit n) acc)
  end.

(** [%Y] is the year as the platform's C library prints it: CPython on glibc
    gives the plain decimal number, so a year below 1000 has fewer than four
    digits ([datetime(999, 5, 6).strftime("%Y")] is ["999"]).  The other
    directives are two digits, zero-padded. *)
Definition directive (c : ascii) (d : datetime) : string :=
  if decide (c = "Y"%char) then pretty (year d)
  else if decide (c = "m"%char) then zpad 2 (month d) ""
  else if decide (c = "d"%char) then zpad 2 (day d) ""
  else if decide (c = "H"%char) then zpad 2 (hour d) ""
  else if decide (c = "M"%char) then zpad 2 (minute d) ""
  else if decide (c = "S"%char) then zpad 2 (second d) ""
  else String "%" (String c "").

(** [d.strftime(fmt)] for the directives the service uses. *)
Fixpoint strftime (d : datetime) (fmt : string) : string :=
  match fmt with
  | "" => ""
  | String c rest =>
      if decide (c = "%"%char) then
        match rest with
        | String c' rest' => directive c' d +:+ strftime d rest'
        | "" => "%"
        end
      else String c (strftime d rest)
  end.

(** ["%04d-%02d-%02d" % (year, month, day)]: the date as [isoformat]
    prints it, and the shape YYYY-MM-DD. *)
Definition iso_date (d : datetime) : string :=
  zpad 4 (year d) "" +:+ "-" +:+ zpad 2 (month d) "" +:+ "-"
  +:+ zpad 2 (day d) "".

(** ["%02d:%02d:%02d" % (hour, minute, second)]: the shape HH:MM:SS. *)
Definition iso_time (d : datetime) : string :=
  zpad 2 (hour d) "" +:+ ":" +:+ zpad 2 (minute d) "" +:+ ":"
  +:+ zpad 2 (second d) "".

(** [d.isoformat(sep)], which does not go through [strftime]: the fraction
    is printed only when it is not 0. *)
Definition isoformat_sep (sep : string) (d : datetime) : string :=
  iso_date d +:+ sep +:+ iso_time d
  +:+ (if microsecond d =? 0 then "" else "." +:+ zpad 6 (microsecond d) "").

Definition isoformat : datetime -> string := isoformat_sep "T".

End Datetime.

Import Datetime.

(** ** BSON values and documents *)

(** The scalar values a stored field can hold, as the driver hands them to
    Python: [None], [bool], [int], [str] and [datetime]. *)
Inductive value :=
| VNone
| VBool (b : bool)
| VInt (n : Z)
| VStr (s : string)
| VDatetime (d : datetime).

#[global] Instance datetime_eq_dec : EqDecision datetime.
Proof. solve_decision. Defined.

#[global] Instance value_eq_dec : EqDecision value.
Proof. solve_decision. Defined.

(** A document is a Python [dict] with string keys. *)
Definition document := gmap string value.

(** [d.get(k, default)] and [d.get(k)]. *)
Definition dict_get (d : document) (k : string) (dflt : value) : value :=
  default dflt (d !! k).

Definition dict_get_none (d : document) (k : string) : value :=
  dict_get d k VNone.

(** [isinstance(v, datetime)]. *)
Definition isinstance_datetime (v : value) : bool :=
  match v with VDatetime _ => true | _ => false end.

(** [str(v)]. *)
Definition py_str (v : value) : string :=
  match v with
  | VNone => "None"
  | VBool true => "True"
  | VBool false => "False"
  | VInt n => pretty n
  | VStr s => s
  | VDatetime d => isoformat_sep " " d
  end.

Definition type_name (v : value) : string :=
  match v with
  | VNone => "NoneType"
  | VBool _ => "bool"
  | VInt _ => "int"
  | VStr _ => "str"
  | VDatetime _ => "datetime.datetime"
  end.

(** ** Exceptions *)

Inductive exn :=
| KeyError (key : string)
| AttributeError (msg : string)
| OverflowError (msg : string)
| FileNotFoundError (msg : string)
| OtherException (msg : string).

(** [str(e)]. *)
Definition exn_str (e : exn) : string :=
  match e with
  | KeyError k => "'" +:+ k +:+ "'"
  | AttributeError m | OverflowError m | FileNotFoundError m
  | OtherException m => m
  end.

Record HTTPException := mk_HTTPException { status_code : Z; detail : string }.

(** ** The world a handler runs in *)

Inductive client := MONGO_CLIENT | mongo_client.

Inductive collection := user_activity_collection | banned_users | auth_admins.

Inductive level := INFO | ERROR.

(** What the handlers read and cannot change: the clock ([clock k] is the
    [k]-th reading of [datetime.utcnow()]), the collections ([db c k] is what
    the [k]-th database operation finds in collection [c], or the exception
    it raises), the file [index.html] and the answer of each client to
    [ping]. *)
Record Env := mk_Env {
  clock : nat -> datetime;
  db : collection -> nat -> exn + list document;
  index_html : exn + string;
  ping : client -> option exn
}.

Record State := mk_State {
  ticks : nat;              (* clock readings taken *)
  queries : nat;            (* database operations issued *)
  commands : list client;   (* liveness commands issued *)
  closed : list client;     (* clients closed *)
  log : list (level * string)
}.

Definition tick (s : State) : State :=
  mk_State (S (ticks s)) (queries s) (commands s) (closed s) (log s).
Definition count_query (s : State) : State :=
  mk_State (ticks s) (S (queries s)) (commands s) (closed s) (log s).
Definition record_command (c : client) (s : State) : State :=
  mk_State (ticks s) (queries s) (commands s ++ [c]) (closed s) (log s).
Definition record_close (c : client) (s : State) : State :=
  mk_State (ticks s) (queries s) (commands s) (closed s ++ [c]) (log s).
Definition record_log (l : level) (msg : string) (s : State) : State :=
  mk_State (ticks s) (queries s) (commands s) (closed s) (log s ++ [(l, msg)]).

(** Computations that read the environment, thread the state and may raise. *)
Definition M (A : Type) : Type := Env -> State -> (exn + A) * State.

#[global] Instance M_ret : MRet M := λ A a _ s, (inr a, s).
#[global] Instance M_bind : MBind M := λ A B f m env s,
  match m env s with
  | (inr a, s') => f a env s'
  | (inl e, s') => (inl e, s')
  end.

Definition raise {A} (e : exn) : M A := λ _ s, (inl e, s).

Definition utcnow : M datetime :=
  λ env s, (inr (clock env (ticks s)), tick s).

Definition LOGGER_info (msg : string) : M unit :=
  λ _ s, (inr (), record_log INFO msg s).

(** [d[k]]. *)
Definition subscript (d : document) (k : string) : M value :=
  match d !! k with
  | Some v => mret v
  | None => raise (KeyError k)
  end.

(** [now - td]. *)
Definition sub_timedelta (d : datetime) (td : timedelta) : M datetime :=
  match Datetime.sub d td with
  | Some r => mret r
  | None => raise (OverflowError "date value out of range")
  end.

(** [v.strftime(fmt)]: only a datetime has the method. *)
Definition strftime_value (v : value) (fmt : string) : M value :=
  match v with
  | VDatetime d => mret (VStr (strftime d fmt))
  | _ => raise (AttributeError
                  ("'" +:+ type_name v +:+ "' object has no attribute 'strftime'"))
  end.

(** *** Queries *)

Inductive cond :=
| Eq (v : value)        (* {"field": v} *)
| Gte (v : value).      (* {"field": {"$gte": v}} *)

Definition query := list (string * cond).

(** Comparison stays within one BSON type; dates compare by their
    millisecond encoding.  An array-valued field, which MongoDB matches
    element by element, is outside [value]. *)
Definition holds (c : cond) (field : option value) : bool :=
  match c, field with
  | Eq v, Some v' => bool_decide (v' = v)
  | Gte (VDatetime lo), Some (VDatetime t) => bson_millis lo <=? bson_millis t
  | Gte (VInt lo), Some (VInt n) => lo <=? n
  | _, _ => false
  end.

Definition matches (q : query) (d : document) : bool :=
  forallb (λ kc, holds kc.2 (d !! kc.1)) q.

Definition select (q : query) (docs : list document) : list document :=
  List.filter (matches q) docs.

(** An inclusion projection keeps the listed fields ([_id] is excluded). *)
Definition project (fields : list string) (d : document) : document :=
  filter (λ kv, kv.1 ∈ fields) d.

Definition db_read (c : collection) : M (list document) :=
  λ env s, (db env c (queries s), count_query s).

(** [await c.count_documents(q)]. *)
Definition count_documents (c : collection) (q : query) : M Z :=
  docs ← db_read c; mret (Z.of_nat (length (select q docs))).

(** [await c.find(q, projection).to_list(None)]. *)
Definition find (c : collection) (q : query) (projection : option (list string))
  : M (list document) :=
  docs ← db_read c;
  mret (match projection with
        | Some fields => project fields <$> select q docs
        | None => select q docs
        end).

(** ** Handlers *)

Inductive outcome (A : Type) :=
| Returned (a : A)
| Raised (h : HTTPException).
Arguments Returned {A} a.
Arguments Raised {A} h.

Definition Handler (A : Type) : Type := Env -> State -> outcome A * State.

(** [try: body  except Exception as e: LOGGER.error(prefix + str(e));
    raise HTTPException(status_code=500, detail=detail)]. *)
Definition guard_handler {A} (prefix detail : string) (body : M A) : Handler A :=
  λ env s,
    match body env s with
    | (inr a, s') => (Returned a, s')
    | (inl e, s') =>
        (Raised (mk_HTTPException 500 detail),
         record_log ERROR (prefix +:+ exn_str e) s')
    end.

Definition API_OWNER : string := "@ISmartCoder".
Definition API_DEV : string := "@TheSmartDev".

(** *** GET / *)

Definition read_index : M string := λ env s, (index_html env, s).

Definition get_index : Handler string :=
  λ env s,
    match read_index env s with
    | (inr html_content, s') => (Returned html_content, s')
    | (inl (FileNotFoundError _), s') =>
        (Raised (mk_HTTPException 404 "Index file not found"),
         record_log ERROR "index.html file not found" s')
    | (inl e, s') =>
        (Raised (mk_HTTPException 500 "Failed to serve index page"),
         record_log ERROR ("Error serving index.html: " +:+ exn_str e) s')
    end.

(** *** GET /api/stats *)

Record Stats := mk_Stats {
  daily_users : Z;
  weekly_users : Z;
  monthly_users : Z;
  yearly_users : Z;
  total_users : Z;
  total_groups : Z
}.

Record StatsResponse := mk_StatsResponse {
  stats_api_owner : string;
  stats_api_dev : string;
  stats : Stats;
  stats_timestamp : string
}.

Definition active_since (cutoff : datetime) : query :=
  [("is_group", Eq (VBool false)); ("last_activity", Gte (VDatetime cutoff))].

Definition get_stats_body : M StatsResponse :=
  now ← utcnow;
  cutoff ← sub_timedelta now (td_days 1);
  daily_users ← count_documents user_activity_collection (active_since cutoff);
  cutoff ← sub_timedelta now (td_weeks 1);
  weekly_users ← count_documents user_activity_collection (active_since cutoff);
  cutoff ← sub_timedelta now (td_days 30);
  monthly_users ← count_documents user_activity_collection (active_since cutoff);
  cutoff ← sub_timedelta now (td_days 365);
  yearly_users ← count_documents user_activity_collection (active_since cutoff);
  total_users ← count_documents user_activity_collection [("is_group", Eq (VBool false))];
  total_groups ← count_documents user_activity_collection [("is_group", Eq (VBool true))];
  let response :=
    mk_StatsResponse API_OWNER API_DEV
      (mk_Stats daily_users weekly_users monthly_users yearly_users
         total_users total_groups)
      (isoformat now) in
  _ ← LOGGER_info "Successfully retrieved stats";
  mret response.

Definition get_stats : Handler StatsResponse :=
  guard_handler "Error retrieving stats: " "Failed to retrieve stats" get_stats_body.

(** *** GET /api/banlist *)

Record BannedEntry := mk_BannedEntry {
  ban_user_id : value;
  ban_full_name : value;
  ban_reason : value;
  ban_ban_date : value
}.

Record BanlistResponse := mk_BanlistResponse {
  banlist_api_owner : string;
  banlist_api_dev : string;
  banlist_banned_users : list BannedEntry;
  total_banned : Z;
  banlist_timestamp : string
}.

Definition banned_entry (user : document) : M BannedEntry :=
  user_id ← subscript user "user_id";
  user_id' ← subscript user "user_id";
  mret (mk_BannedEntry
          user_id
          (dict_get user "username" (VStr (py_str user_id')))
          (dict_get user "reason" (VStr "Undefined"))
          (dict_get user "ban_date" (VStr "Undefined"))).

Definition get_banlist_body : M BanlistResponse :=
  banned_list ← find banned_users [] None;
  match banned_list with
  | [] =>
      now ← utcnow;
      mret (mk_BanlistResponse API_OWNER API_DEV [] 0 (isoformat now))
  | _ =>
      entries ← mapM banned_entry banned_list;
      now ← utcnow;
      let response :=
        mk_BanlistResponse API_OWNER API_DEV entries
          (Z.of_nat (length banned_list)) (isoformat now) in
      _ ← LOGGER_info "Successfully retrieved banlist";
      mret response
  end.

Definition get_banlist : Handler BanlistResponse :=
  guard_handler "Error retrieving banlist: " "Failed to retrieve banlist"
    get_banlist_body.

(** *** GET /api/adminlist *)

Record AdminEntry := mk_AdminEntry {
  user_id : value;
  full_name : value;
  title : value;
  username : value;
  auth_date : value;
  auth_time : value;
  auth_by : value
}.

Record AdminlistResponse := mk_AdminlistResponse {
  adminlist_api_owner : string;
  adminlist_api_dev : string;
  admins : list AdminEntry;
  total_admins : Z;
  adminlist_timestamp : string
}.

Definition owner_entry : AdminEntry :=
  mk_AdminEntry (VInt 7666341631) (VStr "Abir Arafat Chawdhury ðŸ‡§ðŸ‡©")
    (VStr "Owner") (VStr "@ISmartCoder") (VStr "Infinity") (VStr "Infinity")
    (VStr "Abir Arafat Chawdhury").

Definition admin_projection : list string :=
  ["user_id"; "title"; "auth_date"; "username"; "full_name"; "auth_time";
   "auth_by"].

(** The conditional expression of the [auth_date] key: the test is evaluated
    first; in its true branch the default arguments of both [get] calls are
    evaluated (one clock reading) before the outer [get] looks the key up. *)
Definition admin_auth_date (admin : document) : M value :=
  if isinstance_datetime (dict_get_none admin "auth_date") then
    now ← utcnow;
    strftime_value
      (dict_get admin "auth_date" (dict_get admin "auth_time" (VDatetime now)))
      "%Y-%m-%d"
  else mret (VStr "Unknown").

Definition admin_auth_time (admin : document) : M value :=
  now ← utcnow;
  strftime_value (dict_get admin "auth_time" (VDatetime now)) "%H:%M:%S".

Definition admin_entry (admin : document) : M AdminEntry :=
  user_id ← subscript admin "user_id";
  let full_name := dict_get admin "full_name" (VStr "Unknown") in
  title ← subscript admin "title";
  let username := dict_get admin "username" (VStr "None") in
  auth_date ← admin_auth_date admin;
  auth_time ← admin_auth_time admin;
  let auth_by := dict_get admin "auth_by" (VStr "Unknown") in
  mret (mk_AdminEntry user_id full_name title username auth_date auth_time
          auth_by).

Definition get_adminlist_body : M AdminlistResponse :=
  admins ← find auth_admins [] (Some admin_projection);
  let admin_list := [owner_entry] in
  entries ← mapM admin_entry admins;
  let admin_list := (admin_list ++ entries)%list in
  now ← utcnow;
  let response :=
    mk_AdminlistResponse API_OWNER API_DEV admin_list
      (Z.of_nat (length admin_list)) (isoformat now) in
  _ ← LOGGER_info "Successfully retrieved adminlist";
  mret response.

Definition get_adminlist : Handler AdminlistResponse :=
  guard_handler "Error retrieving adminlist: " "Failed to retrieve adminlist"
    get_adminlist_body.

(** ** Start-up and shutdown *)

(** [await c.admin.command("ping")]. *)
Definition admin_command_ping (c : client) : M unit :=
  λ env s,
    (match ping env c with Some e => inl e | None => inr () end,
     record_command c s).

Definition close (c : client) : M unit := λ _ s, (inr (), record_close c s).

(** An async context manager written as a generator: the code before the
    [yield] and the code after it. *)
Record Lifespan := mk_Lifespan {
  enter : Handler unit;
  exit : M unit
}.

Definition lifespan : Lifespan :=
  mk_Lifespan
    (guard_handler "Failed to connect to MongoDB: " "Database connection failed"
       (_ ← admin_command_ping MONGO_CLIENT;
        _ ← admin_command_ping mongo_client;
        LOGGER_info "Successfully connected to MongoDB for both clients"))
    (_ ← close MONGO_CLIENT;
     _ ← close mongo_client;
     LOGGER_info "MongoDB connections closed").

(** *** The application object

    The framework keeps the lifespan context it runs at start-up in the
    application's router, which receives it from the [lifespan=] argument of
    the [FastAPI(...)] constructor and falls back to a context that does
    nothing.  A plain attribute assignment [app.name = v] only stores [v]
    under [name] in the instance; the router does not look there. *)
Record FastAPI := mk_FastAPI {
  app_title : string;
  app_description : string;
  router_lifespan_context : option Lifespan;
  instance_attributes : gmap string Lifespan
}.

(** [FastAPI(title=t, description=d)] and [FastAPI(..., lifespan=l)]. *)
Definition FastAPI_new (t d : string) (lifespan_arg : option Lifespan) : FastAPI :=
  mk_FastAPI t d lifespan_arg ∅.

(** [a.name = v]. *)
Definition setattr (a : FastAPI) (name : string) (v : Lifespan) : FastAPI :=
  mk_FastAPI (app_title a) (app_description a) (router_lifespan_context a)
    (<[name := v]> (instance_attributes a)).

(** Lines 14 and 64 of api.py. *)
Definition app : FastAPI :=
  setattr
    (FastAPI_new "Smart Bot Stats API"
       "API for retrieving bot usage statistics" None)
    "lifespan" lifespan.

Definition default_lifespan : Lifespan :=
  mk_Lifespan (λ _ s, (Returned (), s)) (mret ()).

Definition lifespan_context (a : FastAPI) : Lifespan :=
  default default_lifespan (router_lifespan_context a).

(** *** Serving *)

Inductive request := GET_index | GET_stats | GET_banlist | GET_adminlist.

Inductive body :=
| HTMLBody (html : string)
| StatsBody (r : StatsResponse)
| BanlistBody (r : BanlistResponse)
| AdminlistBody (r : AdminlistResponse).

Definition map_outcome {A B} (f : A -> B) (o : outcome A * State)
  : outcome B * State :=
  match o with
  | (Returned a, s) => (Returned (f a), s)
  | (Raised h, s) => (Raised h, s)
  end.

(** The routes registered by the [@app.get] decorators. *)
Definition dispatch (r : request) : Handler body :=
  λ env s,
    match r with
    | GET_index => map_outcome HTMLBody (get_index env s)
    | GET_stats => map_outcome StatsBody (get_stats env s)
    | GET_banlist => map_outcome BanlistBody (get_banlist env s)
    | GET_adminlist => map_outcome AdminlistBody (get_adminlist env s)
    end.

Fixpoint handle_requests (reqs : list request) (env : Env) (s : State)
  : list (outcome body) * State :=
  match reqs with
  | [] => ([], s)
  | r :: reqs' =>
      let (o, s') := dispatch r env s in
      let (os, s'') := handle_requests reqs' env s' in
      (o :: os, s'')
  end.

(** One run of the server on application [a]: the lifespan context is
    entered; if that raises, start-up has failed and the server exits without
    handling a request; otherwise the requests are handled and the context is
    left. *)
Definition serve (a : FastAPI) (reqs : list request) (env : Env) (s : State)
  : list (outcome body) * State :=
  match enter (lifespan_context a) env s with
  | (Raised _, s') => ([], s')
  | (Returned _, s') =>
      let (os, s'') := handle_requests reqs env s' in
      (os, (exit (lifespan_context a) env s'').2)
  end.

(** * Vocabulary of the properties *)

(** [now - timedelta(days=n)]. *)
Definition days_before (now : datetime) (n : Z) : datetime :=
  mk_datetime (micros now - n * US_PER_DAY).

(** The [k]-th database operation counted [n] records matching [q] in the
    activity collection. *)
Definition counted (env : Env) (k : nat) (q : query) (n : Z) : Prop :=
  ∃ docs, db env user_activity_collection k = inr docs
          ∧ n = Z.of_nat (length (select q docs)).

(** The same environment with another clock. *)
Definition with_clock (c : nat -> datetime) (env : Env) : Env :=
  mk_Env c (db env) (index_html env) (ping env).

(** Code that never reads the clock runs the same under any clock. *)
Definition clock_free {A} (m : M A) : Prop :=
  ∀ env c' s, m (with_clock c' env) s = m env s.

(** ** Frame properties

    What a computation leaves alone is stated as a preorder [R] on states
    that every step of the computation respects. *)

Definition respects {A} (R : relation State) (m : M A) : Prop :=
  ∀ env s, R s (m env s).2.

Class TickFrame (R : relation State) := tick_frame : ∀ s, R s (tick s).
Class QueryFrame (R : relation State) := query_frame : ∀ s, R s (count_query s).
Class LogFrame (R : relation State) :=
  log_frame : ∀ l msg s, R s (record_log l msg s).

(** The frames used below: the clock is not read, is only read forward,
    no command is sent to a client. *)
Definition same_ticks : relation State := λ s s', ticks s' = ticks s.
Definition ticks_le : relation State := λ s s', (ticks s <= ticks s')%nat.
Definition same_commands : relation State := λ s s', commands s' = commands s.

(** How a stored ban record shows in the response. *)
Definition renders_ban (doc : document) (e : BannedEntry) : Prop :=
  doc !! "user_id" = Some (ban_user_id e)
  ∧ ban_full_name e = match doc !! "username" with
                      | Some name => name
                      | None => VStr (py_str (ban_user_id e))
                      end
  ∧ ban_reason e = match doc !! "reason" with
                   | Some v => v
                   | None => VStr "Undefined"
                   end
  ∧ ban_ban_date e = match doc !! "ban_date" with
                     | Some v => v
                     | None => VStr "Undefined"
                     end.

(** The fields of a stored admin record that are copied or defaulted. *)
Definition renders_admin (doc : document) (e : AdminEntry) : Prop :=
  doc !! "user_id" = Some (user_id e)
  ∧ doc !! "title" = Some (title e)
  ∧ full_name e = match doc !! "full_name" with
                  | Some v => v
                  | None => VStr "Unknown"
                  end
  ∧ username e = match doc !! "username" with
                 | Some v => v
                 | None => VStr "None"
                 end
  ∧ auth_by e = match doc !! "auth_by" with
                | Some v => v
                | None => VStr "Unknown"
                end.

(** The two formatted fields; [lo] and [hi] bound the clock readings taken
    while the request was handled. *)
Definition renders_auth (env : Env) (lo hi : nat) (doc : document)
    (e : AdminEntry) : Prop :=
  auth_date e = match doc !! "auth_date" with
                | Some (VDatetime d) => VStr (strftime d "%Y-%m-%d")
                | _ => VStr "Unknown"
                end
  ∧ match doc !! "auth_time" with
    | Some (VDatetime t) => auth_time e = VStr (strftime t "%H:%M:%S")
    | None => ∃ k, (lo <= k < hi)%nat
                   ∧ auth_time e = VStr (strftime (clock env k) "%H:%M:%S")
    | Some _ => False
    end.


(** ** A worked example *)

Module Example.

(** 2025-11-06T00:00:00.123456 *)
Definition t0 : Z := 63897984000123456.

Definition clock (k : nat) : datetime :=
  mk_datetime (t0 + Z.of_nat k * US_PER_SECOND).

Definition activity (uid : Z) (group : bool) (days_ago : Z) : document :=
  {[ "user_id" := VInt uid;
     "is_group" := VBool group;
     "last_activity" := VDatetime (mk_datetime (t0 - days_ago * US_PER_DAY)) ]}.

Definition activities : list document :=
  [activity 1 false 0; activity 2 false 3; activity 3 false 20;
   activity 4 false 200; activity 5 false 500; activity 6 true 0].

Definition bans : list document :=
  [ {[ "user_id" := VInt 42; "username" := VStr "bob"; "reason" := VStr "spam" ]};
    {[ "user_id" := VInt 43 ]} ].

(** 2024-02-22T23:59:59 *)
Definition granted : datetime := mk_datetime 63844243199000000.

Definition admin_full : document :=
  {[ "_id" := VInt 1; "user_id" := VInt 7; "title" := VStr "Admin";
     "auth_date" := VDatetime granted; "auth_time" := VDatetime granted ]}.

(** [auth_date] stored as text, [auth_time] absent. *)
Definition admin_text_date : document :=
  {[ "user_id" := VInt 8; "title" := VStr "Mod";
     "auth_date" := VStr "2024-01-01" ]}.

(** [auth_date] absent although [auth_time] is a timestamp. *)
Definition admin_time_only : document :=
  {[ "user_id" := VInt 9; "title" := VStr "Mod";
     "auth_time" := VDatetime granted ]}.

Definition admin_docs : list document :=
  [admin_full; admin_text_date; admin_time_only].

Definition contents (c : collection) : list document :=
  match c with
  | user_activity_collection => activities
  | banned_users => bans
  | auth_admins => admin_docs
  end.

(** Both databases answer and the page exists. *)
Definition env : Env :=
  mk_Env clock (λ c _, inr (contents c)) (inr "<html></html>") (λ _, None).

(** Neither database is reachable. *)
Definition env_down : Env :=
  mk_Env clock (λ _ _, inl (OtherException "connection refused"))
    (inl (FileNotFoundError "index.html"))
    (λ _, Some (OtherException "connection refused")).

(** The ban collection is empty. *)
Definition env_no_bans : Env :=
  mk_Env clock (λ _ _, inr []) (inr "<html></html>") (λ _, None).

Definition s0 : State := mk_State 0 0 [] [] [].

Definition stats_response : StatsResponse :=
  mk_StatsResponse "@ISmartCoder" "@TheSmartDev" (mk_Stats 1 2 3 4 5 1)
    "2025-11-06T00:00:00.123456".

Definition stats_state : State :=
  mk_State 1 6 [] [] [(INFO, "Successfully retrieved stats")].

(** A ban record without [user_id]: [user["user_id"]] raises [KeyError]. *)
Definition env_ban_without_id : Env :=
  mk_Env clock (λ _ _, inr [ {[ "username" := VStr "eve" ]} ])
    (inr "") (λ _, None).

(** An admin record whose [auth_time] is text: it has no [strftime]. *)
Definition env_text_auth_time : Env :=
  mk_Env clock
    (λ _ _, inr [ {[ "user_id" := VInt 7; "title" := VStr "Admin";
                     "auth_time" := VStr "12:00:00" ]} ])
    (inr "") (λ _, None).

(** The clock stands in year 1: [now - timedelta(days=1)] overflows. *)
Definition env_year_one : Env :=
  mk_Env (λ _, mk_datetime 0) (λ c _, inr (contents c)) (inr "")
    (λ _, None).

(** Both pings fail although the collections can be read. *)
Definition env_ping_fails : Env :=
  mk_Env clock (λ c _, inr (contents c)) (inr "<html></html>")
    (λ _, Some (OtherException "connection refused")).

End Example.

(** The responses the example environment produces. *)

Definition example_banlist_response : BanlistResponse :=
  mk_BanlistResponse "@ISmartCoder" "@TheSmartDev"
    [mk_BannedEntry (VInt 42) (VStr "bob") (VStr "spam") (VStr "Undefined");
     mk_BannedEntry (VInt 43) (VStr "43") (VStr "Undefined") (VStr "Undefined")]
    2 "2025-11-06T00:00:00.123456".

Definition example_banlist_state : State :=
  mk_State 1 1 [] [] [(INFO, "Successfully retrieved banlist")].

Definition example_adminlist_response : AdminlistResponse :=
  mk_AdminlistResponse "@ISmartCoder" "@TheSmartDev"
    [owner_entry;
     mk_AdminEntry (VInt 7) (VStr "Unknown") (VStr "Admin") (VStr "None")
       (VStr "2024-02-22") (VStr "23:59:59") (VStr "Unknown");
     mk_AdminEntry (VInt 8) (VStr "Unknown") (VStr "Mod") (VStr "None")
       (VStr "Unknown") (VStr "00:00:02") (VStr "Unknown");
     mk_AdminEntry (VInt 9) (VStr "Unknown") (VStr "Mod") (VStr "None")
       (VStr "Unknown") (VStr "23:59:59") (VStr "Unknown")]
    4 "2025-11-06T00:00:04.123456".

Definition example_adminlist_state : State :=
  mk_State 5 1 [] [] [(INFO, "Successfully retrieved adminlist")].

(** * The rest of the module *)

(** ** Module initialisation: the two clients

    The module body parses each connection string, takes the database name
    from its [appName] query parameter and builds a client.  The library
    calls are parameters of the model: what [parse_qs(urlparse(url).query)]
    returns or raises, and whether [AsyncIOMotorClient(url)] and
    [client.get_database(name)] raise. *)

Inductive init_exn :=
| ValueError (msg : string)
| IndexError (msg : string)
| LibraryError (e : exn).

Definition init_exn_str (e : init_exn) : string :=
  match e with
  | ValueError m | IndexError m => m
  | LibraryError e => exn_str e
  end.

Record Libraries := mk_Libraries {
  parse_qs_query : string -> exn + gmap string (list string);
  AsyncIOMotorClient : string -> option exn;
  get_database : string -> string -> option exn
}.

Record InitState := mk_InitState {
  init_log : list (level * string);
  client_calls : list string    (* URLs given to AsyncIOMotorClient *)
}.

Definition init_info (msg : string) (st : InitState) : InitState :=
  mk_InitState (init_log st ++ [(INFO, msg)]) (client_calls st).
Definition init_error (msg : string) (st : InitState) : InitState :=
  mk_InitState (init_log st ++ [(ERROR, msg)]) (client_calls st).
Definition call_client (url : string) (st : InitState) : InitState :=
  mk_InitState (init_log st) (client_calls st ++ [url]).

(** [query_params.get("appName", [None])[0]]. *)
Definition first_app_name (query_params : gmap string (list string))
  : init_exn + option string :=
  match query_params !! "appName" with
  | None => inr None                                  (* [None][0] *)
  | Some [] => inl (IndexError "list index out of range")
  | Some (v :: _) => inr (Some v)
  end.

(** [not db_name]. *)
Definition falsy (db_name : option string) : bool :=
  match db_name with
  | None => true
  | Some s => bool_decide (s = "")
  end.

(** The body of one [try] block; [what] is MONGO_URL or DATABASE_URL as it
    appears in the message. *)
Definition open_database (lib : Libraries) (what url : string) (st : InitState)
  : (init_exn + string) * InitState :=
  match parse_qs_query lib url with
  | inl e => (inl (LibraryError e), st)
  | inr query_params =>
      match first_app_name query_params with
      | inl e => (inl e, st)
      | inr db_name =>
          if falsy db_name then
            (inl (ValueError ("No database name found in " +:+ what
                              +:+ " (missing 'appName' query param)")), st)
          else
            let st := call_client url st in
            match AsyncIOMotorClient lib url with
            | Some e => (inl (LibraryError e), st)
            | None =>
                match get_database lib url (default "" db_name) with
                | Some e => (inl (LibraryError e), st)
                | None => (inr (default "" db_name), st)
                end
            end
      end
  end.

(** [LOGGER.info(before); try: body; LOGGER.info(after)
    except Exception as e: LOGGER.error(prefix + str(e)); raise]. *)
Definition logged_block (before after prefix : string)
    (block : InitState -> (init_exn + string) * InitState) (st : InitState)
  : (init_exn + string) * InitState :=
  match block (init_info before st) with
  | (inr name, st') => (inr name, init_info after st')
  | (inl e, st') => (inl e, init_error (prefix +:+ init_exn_str e) st')
  end.

(** Lines 19-48: the names of the two databases, or the exception that ends
    the import. *)
Definition module_init (lib : Libraries) (MONGO_URL DATABASE_URL : string)
    (st : InitState) : (init_exn + string * string) * InitState :=
  match logged_block "Creating MONGO_CLIENT From MONGO_URL"
          "MONGO_CLIENT Created Successfully!" "Failed to create MONGO_CLIENT: "
          (open_database lib "MONGO_URL" MONGO_URL) st with
  | (inl e, st') => (inl e, st')
  | (inr db_mongo, st') =>
      match logged_block "Creating Database Client From DATABASE_URL"
              "Database Client Created Successfully!"
              "Database Client Create Error: "
              (open_database lib "DATABASE_URL" DATABASE_URL) st' with
      | (inl e, st'') => (inl e, st'')
      | (inr db, st'') => (inr (db_mongo, db), st'')
      end
  end.

(** A connection string the module accepts: it parses and the first
    [appName] value is a non-empty name. *)
Definition names_database (lib : Libraries) (url name : string) : Prop :=
  ∃ query_params rest,
    parse_qs_query lib url = inr query_params
    ∧ query_params !! "appName" = Some (name :: rest)
    ∧ name ≠ "".

(** Opening the database of a connection string succeeds: the string names
    a database and neither driver call raises. *)
Definition opens (lib : Libraries) (url name : string) : Prop :=
  names_database lib url name
  ∧ AsyncIOMotorClient lib url = None
  ∧ get_database lib url name = None.

(** ** Further vocabulary *)

Definition same_closed : relation State := λ s s', closed s' = closed s.

(** A computation issues between [lo] and [hi] database operations, and
    exactly [hi] when it returns. *)
Definition reads (lo hi : nat) {A} (m : M A) : Prop :=
  ∀ env s,
    (queries s + lo <= queries (m env s).2 <= queries s + hi)%nat
    ∧ ∀ a, (m env s).1 = inr a -> queries (m env s).2 = (queries s + hi)%nat.

(** The same environment with other collections. *)
Definition with_db (d : collection -> nat -> exn + list document) (env : Env)
  : Env :=
  mk_Env (clock env) d (index_html env) (ping env).

(** Code that never reads the database runs the same over any collections. *)
Definition db_free {A} (m : M A) : Prop :=
  ∀ env d s, m (with_db d env) s = m env s.

(** Two documents hold the same values under the listed keys. *)
Definition agree_on (fields : list string) (d d' : document) : Prop :=
  ∀ k, k ∈ fields -> d !! k = d' !! k.

(** The keys the ban list reads. *)
Definition banlist_fields : list string :=
  ["user_id"; "username"; "reason"; "ban_date"].

(** The records the two list endpoints can render. *)
Definition ban_renderable (d : document) : bool :=
  match d !! "user_id" with Some _ => true | None => false end.

Definition admin_renderable (d : document) : bool :=
  match d !! "user_id", d !! "title", d !! "auth_time" with
  | Some _, Some _, None => true
  | Some _, Some _, Some (VDatetime _) => true
  | _, _, _ => false
  end.

(** What the bot may do to the activity collection between two queries:
    move a record's [last_activity] forward and add records. *)
Definition advanced (a b : document) : Prop :=
  a !! "is_group" = b !! "is_group"
  ∧ match a !! "last_activity", b !! "last_activity" with
    | Some (VDatetime t), Some (VDatetime t') => micros t <= micros t'
    | x, y => x = y
    end.

Definition evolves (docs docs' : list document) : Prop :=
  ∃ kept added, docs' = (kept ++ added)%list ∧ Forall2 advanced docs kept.

Module Scenario.

(** The collection changes while a stats request runs: user 2 becomes
    active before the second query and user 7 joins before the third. *)
Definition view (k : nat) : list document :=
  match k with
  | 0%nat => Example.activities
  | 1%nat =>
      [Example.activity 1 false 0; Example.activity 2 false 0;
       Example.activity 3 false 20; Example.activity 4 false 200;
       Example.activity 5 false 500; Example.activity 6 true 0]
  | _ =>
      [Example.activity 1 false 0; Example.activity 2 false 0;
       Example.activity 3 false 20; Example.activity 4 false 200;
       Example.activity 5 false 500; Example.activity 6 true 0;
       Example.activity 7 false 0]
  end.

Definition env : Env :=
  mk_Env Example.clock (λ _ k, inr (view k)) (inr "") (λ _, None).

Definition stats_response : StatsResponse :=
  mk_StatsResponse "@ISmartCoder" "@TheSmartDev" (mk_Stats 1 2 4 5 6 1)
    "2025-11-06T00:00:00.123456".

Definition stats_state : State :=
  mk_State 1 6 [] [] [(INFO, "Successfully retrieved stats")].

(** The same admin records with fields the endpoint does not project. *)
Definition admin_docs_extra : list document :=
  [ <["note" := VStr "internal"]> Example.admin_full;
    <["_id" := VInt 2]> Example.admin_text_date;
    <["password" := VStr "secret"]> Example.admin_time_only ].

Definition bans_extra : list document :=
  [ <["_id" := VInt 1]> {[ "user_id" := VInt 42; "username" := VStr "bob";
                           "reason" := VStr "spam" ]};
    <["note" := VStr "internal"]> {[ "user_id" := VInt 43 ]} ].

(** Connection strings: the parsed query of each is given directly. *)
Definition lib : Libraries :=
  mk_Libraries
    (λ url, inr (if decide (url = "mongodb://a/?appName=bot&appName=x")
                 then {[ "appName" := ["bot"; "x"] ]}
                 else if decide (url = "mongodb://b/?appName=admin")
                      then {[ "appName" := ["admin"] ]}
                      else ∅))
    (λ _, None) (λ _ _, None).

Definition init0 : InitState := mk_InitState [] [].

End Scenario.

(** ** The admin list before year 1000 *)


Module Year999.

(** 0999-05-06T00:00:00 *)
Definition granted : datetime := mk_datetime 31504636800000000.

Definition admin : document :=
  {[ "user_id" := VInt 10; "title" := VStr "Admin";
     "auth_date" := VDatetime granted; "auth_time" := VDatetime granted ]}.

Definition env : Env :=
  mk_Env Example.clock (λ _ _, inr [admin]) (inr "") (λ _, None).

Definition response : AdminlistResponse :=
  mk_AdminlistResponse "@ISmartCoder" "@TheSmartDev"
    [owner_entry;
     mk_AdminEntry (VInt 10) (VStr "Unknown") (VStr "Admin") (VStr "None")
       (VStr "999-05-06") (VStr "00:00:00") (VStr "Unknown")]
    2 "2025-11-06T00:00:02.123456".


End Year999.

(** * Properties *)

(** ** Running monadic code *)

Lemma bind_inr {A B} (m : M A) (f : A -> M B) env s b s' :
  (m ≫= f) env s = (inr b, s') ->
  ∃ a s1, m env s = (inr a, s1) ∧ f a env s1 = (inr b, s').
Proof.
  unfold mbind, M_bind.
  destruct (m env s) as [[e|a] s1]; [discriminate|eauto].
Qed.

Lemma ret_inr {A} (a b : A) env s s' :
  mret (M := M) a env s = (inr b, s') -> b = a ∧ s' = s.
Proof. unfold mret, M_ret. by intros [= -> ->]. Qed.

Lemma utcnow_inr env s d s' :
  utcnow env s = (inr d, s') -> d = clock env (ticks s) ∧ s' = tick s.
Proof. unfold utcnow. by intros [= <- <-]. Qed.

Lemma LOGGER_info_inr msg env s u s' :
  LOGGER_info msg env s = (inr u, s') -> s' = record_log INFO msg s.
Proof. unfold LOGGER_info. by intros [= <-]. Qed.

Lemma sub_timedelta_inr d td env s c s' :
  sub_timedelta d td env s = (inr c, s') -> Datetime.sub d td = Some c ∧ s' = s.
Proof.
  unfold sub_timedelta. destruct (Datetime.sub d td); [|discriminate].
  by intros [= -> ->].
Qed.

Lemma subscript_inr d k env s v s' :
  subscript d k env s = (inr v, s') -> d !! k = Some v ∧ s' = s.
Proof.
  unfold subscript. destruct (d !! k); [|discriminate]. by intros [= -> ->].
Qed.

Lemma strftime_value_inr v fmt env s out s' :
  strftime_value v fmt env s = (inr out, s') ->
  ∃ d, v = VDatetime d ∧ out = VStr (strftime d fmt) ∧ s' = s.
Proof. destruct v; try discriminate. intros [= <- <-]. eauto. Qed.

Lemma db_read_inr c env s docs s' :
  db_read c env s = (inr docs, s') ->
  db env c (queries s) = inr docs ∧ s' = count_query s.
Proof. unfold db_read. by intros [= -> <-]. Qed.

Lemma count_documents_inr c q env s n s' :
  count_documents c q env s = (inr n, s') ->
  ∃ docs, db env c (queries s) = inr docs
          ∧ n = Z.of_nat (length (select q docs)) ∧ s' = count_query s.
Proof.
  intros (docs & s1 & Hr & Hn)%bind_inr.
  apply db_read_inr in Hr as [Hdb ->]. apply ret_inr in Hn as [-> ->]. eauto.
Qed.

Lemma find_inr c q proj env s out s' :
  find c q proj env s = (inr out, s') ->
  ∃ docs, db env c (queries s) = inr docs ∧ s' = count_query s
          ∧ out = match proj with
                  | Some fields => project fields <$> select q docs
                  | None => select q docs
                  end.
Proof.
  intros (docs & s1 & Hr & Hn)%bind_inr.
  apply db_read_inr in Hr as [Hdb ->]. apply ret_inr in Hn as [-> ->]. eauto.
Qed.

(** The handler boundary: a value returned by the handler was produced by
    its body, and an exception raised by the body becomes the fixed 500. *)
Lemma guard_handler_returned {A} prefix msg (m : M A) env s a s' :
  guard_handler prefix msg m env s = (Returned a, s') -> m env s = (inr a, s').
Proof.
  unfold guard_handler. destruct (m env s) as [[e|x] s1]; [discriminate|].
  by intros [= -> ->].
Qed.

Lemma guard_handler_raised {A} prefix msg (m : M A) env s e s1 :
  m env s = (inl e, s1) ->
  guard_handler prefix msg m env s
  = (Raised (mk_HTTPException 500 msg),
     record_log ERROR (prefix +:+ exn_str e) s1).
Proof. unfold guard_handler. by intros ->. Qed.


(** ** Queries *)

Lemma select_nil docs : select [] docs = docs.
Proof.
  unfold select. induction docs as [|d docs IH]; simpl; [done|by rewrite IH].
Qed.

Lemma select_length_mono (p q : query) docs :
  (∀ d, matches p d = true -> matches q d = true) ->
  (length (select p docs) <= length (select q docs))%nat.
Proof.
  intros Hpq. unfold select.
  induction docs as [|d docs IH]; simpl; [lia|].
  destruct (matches p d) eqn:Hp.
  - rewrite (Hpq d Hp). simpl. lia.
  - destruct (matches q d); simpl; lia.
Qed.

(** A record active since a later cutoff is active since an earlier one. *)
Lemma active_since_mono (later earlier : datetime) d :
  micros earlier <= micros later ->
  matches (active_since later) d = true ->
  matches (active_since earlier) d = true.
Proof.
  intros Hle. unfold matches, active_since. cbn [forallb fst snd].
  destruct (holds (Eq (VBool false)) (d !! "is_group")); [|done].
  rewrite !andb_true_l, !andb_true_r.
  destruct (d !! "last_activity") as [[| | | |t]|]; cbn [holds]; try done.
  intros Hlt%Z.leb_le. apply Z.leb_le.
  etrans; [|exact Hlt]. unfold bson_millis. apply Z.div_le_mono; lia.
Qed.

Lemma matches_is_group (d : document) (b b' : bool) :
  d !! "is_group" = Some (VBool b) ->
  matches [("is_group", Eq (VBool b'))] d = Bool.eqb b b'.
Proof.
  intros Hb. unfold matches. cbn [forallb fst snd holds]. rewrite Hb.
  rewrite andb_true_r. destruct b, b'; reflexivity.
Qed.

(** Every record with a boolean [is_group] is counted by exactly one of the
    two unconditional counts. *)
Lemma partition_by_is_group docs :
  Forall (λ d : document, ∃ b, d !! "is_group" = Some (VBool b)) docs ->
  (length (select [("is_group", Eq (VBool false))] docs)
   + length (select [("is_group", Eq (VBool true))] docs))%nat
  = length docs.
Proof.
  unfold select. induction 1 as [|d docs [b Hb] _ IH]; [done|].
  cbn [List.filter]. rewrite !(matches_is_group d b) by done.
  destruct b; cbn [Bool.eqb length]; lia.
Qed.

(** ** GET /api/stats *)

Lemma sub_days now n c :
  Datetime.sub now (td_days n) = Some c -> c = days_before now n.
Proof.
  unfold Datetime.sub, days_before, td_days. simpl.
  destruct (in_range _); [|discriminate]. by intros [= <-].
Qed.

Lemma get_stats_body_inv env s r s' :
  get_stats_body env s = (inr r, s') ->
  let now := clock env (ticks s) in
  let q := queries s in
  ticks s' = S (ticks s)
  ∧ stats_timestamp r = isoformat now
  ∧ counted env q (active_since (days_before now 1)) (daily_users (stats r))
  ∧ counted env (q + 1) (active_since (days_before now 7)) (weekly_users (stats r))
  ∧ counted env (q + 2) (active_since (days_before now 30)) (monthly_users (stats r))
  ∧ counted env (q + 3) (active_since (days_before now 365)) (yearly_users (stats r))
  ∧ counted env (q + 4) [("is_group", Eq (VBool false))] (total_users (stats r))
  ∧ counted env (q + 5) [("is_group", Eq (VBool true))] (total_groups (stats r)).
Proof.
  unfold get_stats_body. intros H.
  apply bind_inr in H as (now & s1 & [-> ->]%utcnow_inr & H).
  apply bind_inr in H as (c1 & ? & [->%sub_days ->]%sub_timedelta_inr & H).
  apply bind_inr in H as (n1 & ? & (d1 & Hd1 & -> & ->)%count_documents_inr & H).
  apply bind_inr in H as (c2 & ? & [->%sub_days ->]%sub_timedelta_inr & H).
  apply bind_inr in H as (n2 & ? & (d2 & Hd2 & -> & ->)%count_documents_inr & H).
  apply bind_inr in H as (c3 & ? & [->%sub_days ->]%sub_timedelta_inr & H).
  apply bind_inr in H as (n3 & ? & (d3 & Hd3 & -> & ->)%count_documents_inr & H).
  apply bind_inr in H as (c4 & ? & [->%sub_days ->]%sub_timedelta_inr & H).
  apply bind_inr in H as (n4 & ? & (d4 & Hd4 & -> & ->)%count_documents_inr & H).
  apply bind_inr in H as (n5 & ? & (d5 & Hd5 & -> & ->)%count_documents_inr & H).
  apply bind_inr in H as (n6 & ? & (d6 & Hd6 & -> & ->)%count_documents_inr & H).
  apply bind_inr in H as (u & ? & ->%LOGGER_info_inr & H).
  apply ret_inr in H as [-> ->]. simpl in *.
  replace (S (queries s)) with (queries s + 1)%nat in * by lia.
  replace (S (queries s + 1)) with (queries s + 2)%nat in * by lia.
  replace (S (queries s + 2)) with (queries s + 3)%nat in * by lia.
  replace (S (queries s + 3)) with (queries s + 4)%nat in * by lia.
  replace (S (queries s + 4)) with (queries s + 5)%nat in * by lia.
  unfold counted. repeat split; eauto.
Qed.

(** ** Independence of the clock *)

Lemma clock_free_ret {A} (a : A) : clock_free (mret a).
Proof. done. Qed.

Lemma clock_free_bind {A B} (m : M A) (f : A -> M B) :
  clock_free m -> (∀ a, clock_free (f a)) -> clock_free (m ≫= f).
Proof.
  intros Hm Hf env c' s. unfold mbind, M_bind. rewrite Hm.
  destruct (m env s) as [[e|a] s1]; [done|apply Hf].
Qed.

Lemma clock_free_sub_timedelta d td : clock_free (sub_timedelta d td).
Proof. intros env c' s. unfold sub_timedelta. by destruct (Datetime.sub d td). Qed.

Lemma clock_free_count_documents c q : clock_free (count_documents c q).
Proof. done. Qed.

Lemma clock_free_LOGGER_info msg : clock_free (LOGGER_info msg).
Proof. done. Qed.

Create HintDb clock_free.
#[local] Hint Resolve clock_free_ret clock_free_sub_timedelta
  clock_free_count_documents clock_free_LOGGER_info : clock_free.

Ltac clock_free :=
  repeat (apply clock_free_bind; [solve [auto with clock_free]|intros]);
  auto with clock_free.

Lemma bind_utcnow {A} (f : datetime -> M A) env s :
  (utcnow ≫= f) env s = f (clock env (ticks s)) env (tick s).
Proof. reflexivity. Qed.

Lemma bind_utcnow_clock_irrelevant {A} (f : datetime -> M A) env s c' :
  (∀ now, clock_free (f now)) ->
  c' (ticks s) = clock env (ticks s) ->
  (utcnow ≫= f) (with_clock c' env) s = (utcnow ≫= f) env s.
Proof.
  intros Hf Hc. rewrite !bind_utcnow. cbn [with_clock clock]. rewrite Hc.
  apply Hf.
Qed.

Lemma get_stats_clock_irrelevant env s c' :
  c' (ticks s) = clock env (ticks s) ->
  get_stats (with_clock c' env) s = get_stats env s.
Proof.
  intros Hc. unfold get_stats, guard_handler, get_stats_body.
  rewrite bind_utcnow_clock_irrelevant; [reflexivity| |done].
  intros now. clock_free.
Qed.

(** ** What the handlers leave alone *)

Section Frame.
Context (R : relation State) `{!PreOrder R}.

Lemma respects_ret {A} (a : A) : respects R (mret a).
Proof. intros env s. reflexivity. Qed.

Lemma respects_raise {A} e : respects R (raise (A := A) e).
Proof. intros env s. reflexivity. Qed.

Lemma respects_bind {A B} (m : M A) (f : A -> M B) :
  respects R m -> (∀ a, respects R (f a)) -> respects R (m ≫= f).
Proof.
  intros Hm Hf env s. unfold mbind, M_bind.
  specialize (Hm env s). destruct (m env s) as [[e|a] s1]; [done|].
  simpl in Hm. etrans; [exact Hm|apply Hf].
Qed.

Lemma respects_mapM {A B} (f : A -> M B) (l : list A) :
  (∀ a, respects R (f a)) -> respects R (mapM f l).
Proof.
  intros Hf. induction l as [|a l IH]; simpl.
  - apply respects_ret.
  - apply respects_bind; [apply Hf|]. intros b.
    apply respects_bind; [apply IH|]. intros bs. apply respects_ret.
Qed.

Lemma respects_subscript d k : respects R (subscript d k).
Proof.
  unfold subscript. destruct (d !! k); [apply respects_ret|apply respects_raise].
Qed.

Lemma respects_sub_timedelta d td : respects R (sub_timedelta d td).
Proof.
  unfold sub_timedelta.
  destruct (Datetime.sub d td); [apply respects_ret|apply respects_raise].
Qed.

Lemma respects_strftime_value v fmt : respects R (strftime_value v fmt).
Proof. destruct v; first [apply respects_ret|apply respects_raise]. Qed.

Lemma respects_utcnow `{!TickFrame R} : respects R utcnow.
Proof. intros env s. apply tick_frame. Qed.

Lemma respects_LOGGER_info `{!LogFrame R} msg : respects R (LOGGER_info msg).
Proof. intros env s. apply log_frame. Qed.

Lemma respects_db_read `{!QueryFrame R} c : respects R (db_read c).
Proof. intros env s. apply query_frame. Qed.

Lemma respects_count_documents `{!QueryFrame R} c q :
  respects R (count_documents c q).
Proof.
  apply respects_bind; [apply respects_db_read|]. intros. apply respects_ret.
Qed.

Lemma respects_find `{!QueryFrame R} c q proj : respects R (find c q proj).
Proof.
  apply respects_bind; [apply respects_db_read|]. intros. apply respects_ret.
Qed.

Lemma respects_guard_handler `{!LogFrame R} {A} prefix msg (m : M A) env s :
  respects R m -> R s (guard_handler prefix msg m env s).2.
Proof.
  intros Hm. specialize (Hm env s). unfold guard_handler.
  destruct (m env s) as [[e|a] s1]; simpl in *; [|done].
  etrans; [exact Hm|apply log_frame].
Qed.

End Frame.

Ltac respects_step :=
  first
    [ apply respects_ret | apply respects_raise | apply respects_subscript
    | apply respects_sub_timedelta | apply respects_strftime_value
    | apply respects_utcnow | apply respects_LOGGER_info
    | apply respects_count_documents | apply respects_find
    | apply respects_mapM; intros
    | apply respects_bind; [..|intros] ];
  try solve [typeclasses eauto].

Ltac respects := repeat respects_step.

#[global] Instance same_ticks_preorder : PreOrder same_ticks.
Proof. split; unfold same_ticks; [by intros ?|intros ???; congruence]. Qed.
#[global] Instance same_ticks_query : QueryFrame same_ticks.
Proof. by intros s. Qed.
#[global] Instance same_ticks_log : LogFrame same_ticks.
Proof. by intros l msg s. Qed.

#[global] Instance ticks_le_preorder : PreOrder ticks_le.
Proof. split; unfold ticks_le; [by intros ?|intros ???; lia]. Qed.
#[global] Instance ticks_le_tick : TickFrame ticks_le.
Proof. intros s. unfold ticks_le. simpl. lia. Qed.
#[global] Instance ticks_le_query : QueryFrame ticks_le.
Proof. intros s. unfold ticks_le. simpl. lia. Qed.
#[global] Instance ticks_le_log : LogFrame ticks_le.
Proof. intros l msg s. unfold ticks_le. simpl. lia. Qed.

#[global] Instance same_commands_preorder : PreOrder same_commands.
Proof. split; unfold same_commands; [by intros ?|intros ???; congruence]. Qed.
#[global] Instance same_commands_tick : TickFrame same_commands.
Proof. by intros s. Qed.
#[global] Instance same_commands_query : QueryFrame same_commands.
Proof. by intros s. Qed.
#[global] Instance same_commands_log : LogFrame same_commands.
Proof. by intros l msg s. Qed.

(** The clock is read once whether or not the request succeeds. *)
Lemma get_stats_reads_clock_once env s :
  ticks (get_stats env s).2 = S (ticks s).
Proof.
  change (same_ticks (tick s) (get_stats env s).2).
  unfold get_stats, guard_handler, get_stats_body. rewrite bind_utcnow.
  match goal with
  | |- context [?f env (tick s)] =>
      assert (respects same_ticks f) as Hf by respects;
      specialize (Hf env (tick s)); destruct (f env (tick s)) as [[e|r] s1]
  end; exact Hf.
Qed.

Lemma get_stats_example :
  get_stats Example.env Example.s0
  = (Returned Example.stats_response, Example.stats_state).
Proof. vm_compute. reflexivity. Qed.

(** C2: every stats request reads the clock exactly once, at index
    [ticks s], whatever its outcome; that instant [now] is the response's
    ISO-8601 [timestamp] and the base of the four cutoffs (now minus 1, 7, 30
    and 365 days); under any clock that agrees on that one reading the
    request runs identically. *)
Theorem get_stats_single_now env s :
  let now := clock env (ticks s) in
  let q := queries s in
  ticks (get_stats env s).2 = S (ticks s)
  ∧ (∀ c', c' (ticks s) = now ->
           get_stats (with_clock c' env) s = get_stats env s)
  ∧ ∀ r s', get_stats env s = (Returned r, s') ->
      stats_timestamp r = isoformat now
      ∧ counted env q (active_since (days_before now 1))
          (daily_users (stats r))
      ∧ counted env (q + 1) (active_since (days_before now 7))
          (weekly_users (stats r))
      ∧ counted env (q + 2) (active_since (days_before now 30))
          (monthly_users (stats r))
      ∧ counted env (q + 3) (active_since (days_before now 365))
          (yearly_users (stats r)).
Proof.
  intros now q. split; [apply get_stats_reads_clock_once|].
  split; [intros c' Hc; by apply get_stats_clock_irrelevant|].
  intros r s' H.
  pose proof (get_stats_body_inv _ _ _ _ (guard_handler_returned _ _ _ _ _ _ _ H))
    as (_ & Hts & H1 & H7 & H30 & H365 & _).
  done.
Qed.

Lemma get_stats_single_now_witness :
  ticks (get_stats Example.env Example.s0).2 = 1%nat
  ∧ get_stats
      (with_clock (λ k, match k with
                        | O => Example.clock 0
                        | _ => mk_datetime 0
                        end) Example.env) Example.s0
    = get_stats Example.env Example.s0
  ∧ stats_timestamp Example.stats_response = isoformat (Example.clock 0).
Proof.
  destruct (get_stats_single_now Example.env Example.s0)
    as (Hticks & Hclock & Hresp).
  split; [exact Hticks|]. split; [apply Hclock; reflexivity|].
  destruct (Hresp Example.stats_response Example.stats_state) as (Hts & _).
  - vm_compute. reflexivity.
  - exact Hts.
Defined.

(** C5: when the four windowed counts see the same activity collection, they
    are nested: daily <= weekly <= monthly <= yearly. *)
Theorem stats_windows_nested env s r s' docs :
  get_stats env s = (Returned r, s') ->
  (∀ k, (k < 4)%nat -> db env user_activity_collection (queries s + k) = inr docs) ->
  daily_users (stats r) <= weekly_users (stats r)
  ∧ weekly_users (stats r) <= monthly_users (stats r)
  ∧ monthly_users (stats r) <= yearly_users (stats r).
Proof.
  intros H Hdocs.
  pose proof (get_stats_body_inv _ _ _ _ (guard_handler_returned _ _ _ _ _ _ _ H))
    as (_ & _ & (d1 & E1 & ->) & (d2 & E2 & ->) & (d3 & E3 & ->)
        & (d4 & E4 & ->) & _).
  pose proof (Hdocs 0%nat ltac:(lia)) as D0. rewrite Nat.add_0_r in D0.
  rewrite D0 in E1. rewrite (Hdocs 1%nat) in E2 by lia.
  rewrite (Hdocs 2%nat) in E3 by lia. rewrite (Hdocs 3%nat) in E4 by lia.
  injection E1 as <-. injection E2 as <-. injection E3 as <-. injection E4 as <-.
  repeat split; apply inj_le, select_length_mono; intros d;
    apply active_since_mono; unfold days_before, US_PER_DAY, US_PER_SECOND;
    simpl; lia.
Qed.

Lemma stats_windows_nested_witness :
  daily_users (stats Example.stats_response)
  <= weekly_users (stats Example.stats_response)
  ∧ weekly_users (stats Example.stats_response)
    <= monthly_users (stats Example.stats_response)
  ∧ monthly_users (stats Example.stats_response)
    <= yearly_users (stats Example.stats_response).
Proof.
  apply (stats_windows_nested Example.env Example.s0 Example.stats_response
           Example.stats_state Example.activities).
  - vm_compute. reflexivity.
  - intros k _. reflexivity.
Defined.

(** C6: when every activity record has a boolean [is_group] and the two
    unconditional counts see the same collection, [total_users +
    total_groups] is the number of records. *)
Theorem stats_totals_partition env s r s' docs :
  get_stats env s = (Returned r, s') ->
  db env user_activity_collection (queries s + 4) = inr docs ->
  db env user_activity_collection (queries s + 5) = inr docs ->
  Forall (λ d : document, ∃ b, d !! "is_group" = Some (VBool b)) docs ->
  total_users (stats r) + total_groups (stats r) = Z.of_nat (length docs).
Proof.
  intros H Hu Hg Hbool.
  pose proof (get_stats_body_inv _ _ _ _ (guard_handler_returned _ _ _ _ _ _ _ H))
    as (_ & _ & _ & _ & _ & _ & (d5 & E5 & ->) & (d6 & E6 & ->)).
  rewrite Hu in E5. rewrite Hg in E6. injection E5 as <-. injection E6 as <-.
  rewrite <- (partition_by_is_group docs Hbool). lia.
Qed.

Lemma stats_totals_partition_witness :
  total_users (stats Example.stats_response)
  + total_groups (stats Example.stats_response)
  = Z.of_nat (length Example.activities).
Proof.
  apply (stats_totals_partition Example.env Example.s0 Example.stats_response
           Example.stats_state Example.activities).
  - vm_compute. reflexivity.
  - reflexivity.
  - reflexivity.
  - unfold Example.activities, Example.activity.
    repeat constructor; eexists; vm_compute; reflexivity.
Defined.

(** ** Comprehensions *)

(** A successful [mapM] ran [f] on every element, in order, between the
    initial and the final state. *)
Lemma mapM_inr (R : relation State) `{!PreOrder R} {A B} (f : A -> M B)
    (l : list A) env s bs s' :
  (∀ a, respects R (f a)) ->
  mapM f l env s = (inr bs, s') ->
  Forall2 (λ a b, ∃ s1 s2, f a env s1 = (inr b, s2) ∧ R s s1 ∧ R s2 s') l bs.
Proof.
  intros Hf. revert s bs. induction l as [|a l IH]; intros s bs H.
  - apply (ret_inr _ _ env) in H as [-> _]. constructor.
  - simpl in H.
    apply bind_inr in H as (b & s1 & Hb & H).
    apply bind_inr in H as (bs' & s2 & Hbs & H).
    apply ret_inr in H as [-> ->].
    pose proof (Hf a env s) as Hstep. rewrite Hb in Hstep.
    pose proof (respects_mapM R f l Hf env s1) as Hrest. rewrite Hbs in Hrest.
    simpl in Hstep, Hrest.
    constructor.
    + exists s, s1. repeat split; [done|reflexivity|done].
    + eapply Forall2_impl; [apply IH, Hbs|].
      intros x y (t1 & t2 & Hxy & Ht1 & Ht2).
      exists t1, t2. repeat split; [done| |done]. by etrans.
Qed.

(** ** GET /api/banlist *)

Lemma banned_entry_inr user env s e s' :
  banned_entry user env s = (inr e, s') -> renders_ban user e ∧ s' = s.
Proof.
  unfold banned_entry. intros H.
  apply bind_inr in H as (uid & ? & [Huid ->]%subscript_inr & H).
  apply bind_inr in H as (uid' & ? & [Huid' ->]%subscript_inr & H).
  apply ret_inr in H as [-> ->].
  assert (uid' = uid) as -> by congruence.
  unfold renders_ban, dict_get. simpl.
  repeat split; done.
Qed.

Lemma respects_banned_entry R `{!PreOrder R} user : respects R (banned_entry user).
Proof. unfold banned_entry. respects. Qed.

Lemma get_banlist_body_inv env s r s' :
  get_banlist_body env s = (inr r, s') ->
  ∃ docs, db env banned_users (queries s) = inr docs
          ∧ Forall2 renders_ban docs (banlist_banned_users r)
          ∧ total_banned r = Z.of_nat (length docs)
          ∧ banlist_timestamp r = isoformat (clock env (ticks s)).
Proof.
  unfold get_banlist_body. intros H.
  apply bind_inr in H as (l & ? & (docs & Hdb & -> & ->)%find_inr & H).
  rewrite select_nil in H. exists docs. split; [done|].
  destruct docs as [|doc docs].
  - apply bind_inr in H as (now & ? & [-> ->]%utcnow_inr & H).
    apply ret_inr in H as [-> ->]. simpl. repeat split. constructor.
  - apply bind_inr in H as (es & s1 & Hes & H).
    apply bind_inr in H as (now & ? & [-> ->]%utcnow_inr & H).
    apply bind_inr in H as (u & ? & ->%LOGGER_info_inr & H).
    apply ret_inr in H as [-> ->]. simpl.
    pose proof (mapM_inr same_ticks _ _ _ _ _ _
                  (respects_banned_entry same_ticks) Hes) as Hall.
    pose proof (respects_mapM same_ticks banned_entry (doc :: docs)
                  (respects_banned_entry same_ticks) env (count_query s)) as Ht.
    rewrite Hes in Ht. unfold same_ticks in Ht. simpl in Ht.
    repeat split; [|by rewrite Ht].
    eapply Forall2_impl; [exact Hall|].
    intros x y (t1 & t2 & Hxy & _). by apply banned_entry_inr in Hxy as [? _].
Qed.

(** C7: with an empty ban collection the endpoint succeeds with an empty
    list and a count of 0. *)
Theorem get_banlist_empty env s :
  db env banned_users (queries s) = inr [] ->
  get_banlist env s
  = (Returned (mk_BanlistResponse API_OWNER API_DEV [] 0
                 (isoformat (clock env (ticks s)))),
     tick (count_query s)).
Proof.
  intros Hdb.
  unfold get_banlist, guard_handler, get_banlist_body, find, db_read, mbind,
    M_bind, mret, M_ret.
  rewrite Hdb. reflexivity.
Qed.

Lemma get_banlist_empty_witness :
  get_banlist Example.env_no_bans Example.s0
  = (Returned (mk_BanlistResponse "@ISmartCoder" "@TheSmartDev" [] 0
                 "2025-11-06T00:00:00.123456"),
     mk_State 1 1 [] [] []).
Proof.
  rewrite (get_banlist_empty Example.env_no_bans Example.s0); reflexivity.
Defined.

(** C8: every stored ban record shows, in order, as an entry whose
    [full_name] is the record's [username] (the stringified [user_id] when
    the key is absent) and whose [reason] and [ban_date] are the stored
    values, or "Undefined" when the key is absent. *)
Theorem get_banlist_entries env s r s' docs :
  get_banlist env s = (Returned r, s') ->
  db env banned_users (queries s) = inr docs ->
  Forall2 renders_ban docs (banlist_banned_users r).
Proof.
  intros H Hdb.
  apply guard_handler_returned, get_banlist_body_inv in H
    as (docs' & Hdb' & Hall & _).
  rewrite Hdb in Hdb'. by injection Hdb' as <-.
Qed.

Lemma get_banlist_entries_witness :
  Forall2 renders_ban Example.bans (banlist_banned_users example_banlist_response).
Proof.
  apply (get_banlist_entries Example.env Example.s0 example_banlist_response
           example_banlist_state Example.bans).
  - vm_compute. reflexivity.
  - reflexivity.
Defined.

(** ** GET /api/adminlist *)

Lemma project_lookup (fields : list string) (d : document) (k : string) :
  k ∈ fields -> project fields d !! k = d !! k.
Proof.
  intros Hk. unfold project. destruct (d !! k) as [v|] eqn:E.
  - by apply map_lookup_filter_Some.
  - apply map_lookup_filter_None. by left.
Qed.

Lemma admin_auth_date_inr admin env s v s' :
  admin_auth_date admin env s = (inr v, s') ->
  v = match admin !! "auth_date" with
      | Some (VDatetime d) => VStr (strftime d "%Y-%m-%d")
      | _ => VStr "Unknown"
      end.
Proof.
  unfold admin_auth_date, dict_get_none, dict_get.
  destruct (admin !! "auth_date") as [[| | | |d]|]; simpl;
    by intros [= <- _].
Qed.

Lemma admin_auth_time_inr admin env s v s' :
  admin_auth_time admin env s = (inr v, s') ->
  s' = tick s
  ∧ match admin !! "auth_time" with
    | Some (VDatetime t) => v = VStr (strftime t "%H:%M:%S")
    | None => v = VStr (strftime (clock env (ticks s)) "%H:%M:%S")
    | Some _ => False
    end.
Proof.
  unfold admin_auth_time, dict_get. rewrite bind_utcnow.
  destruct (admin !! "auth_time") as [[| | | |t]|]; simpl;
    first [discriminate|by intros [= <- <-]].
Qed.

Lemma respects_admin_entry R `{!PreOrder R, !TickFrame R} admin :
  respects R (admin_entry admin).
Proof.
  unfold admin_entry, admin_auth_date, admin_auth_time. respects.
  destruct (isinstance_datetime _); respects.
Qed.

Lemma admin_entry_inr admin env s e s' :
  admin_entry admin env s = (inr e, s') ->
  renders_admin admin e ∧ renders_auth env (ticks s) (ticks s') admin e.
Proof.
  unfold admin_entry. intros H.
  apply bind_inr in H as (uid & ? & [Huid ->]%subscript_inr & H).
  apply bind_inr in H as (ttl & ? & [Httl ->]%subscript_inr & H).
  apply bind_inr in H as (ad & s1 & Had & H).
  apply bind_inr in H as (at_ & s2 & Hat & H).
  apply ret_inr in H as [-> ->].
  assert (ticks_le s s1) as Hle.
  { assert (respects ticks_le (admin_auth_date admin)) as Hr.
    { unfold admin_auth_date. destruct (isinstance_datetime _); respects. }
    specialize (Hr env s). by rewrite Had in Hr. }
  apply admin_auth_date_inr in Had as ->.
  apply admin_auth_time_inr in Hat as [-> Hat].
  unfold ticks_le in Hle.
  split; [by unfold renders_admin, dict_get|].
  split; simpl; [done|].
  destruct (admin !! "auth_time") as [[| | | |t]|]; try done.
  exists (ticks s1). split; [lia|done].
Qed.

Lemma renders_project doc e env lo hi :
  renders_admin (project admin_projection doc) e ->
  renders_auth env lo hi (project admin_projection doc) e ->
  renders_admin doc e ∧ renders_auth env lo hi doc e.
Proof.
  unfold renders_admin, renders_auth.
  rewrite !project_lookup by (unfold admin_projection; set_solver).
  done.
Qed.

Lemma get_adminlist_body_inv env s r s' :
  get_adminlist_body env s = (inr r, s') ->
  ∃ docs es,
    db env auth_admins (queries s) = inr docs
    ∧ admins r = owner_entry :: es
    ∧ Forall2 (λ doc e, renders_admin doc e
                        ∧ renders_auth env (ticks s) (ticks s') doc e) docs es
    ∧ total_admins r = Z.of_nat (length (admins r)).
Proof.
  unfold get_adminlist_body. intros H.
  apply bind_inr in H as (l & ? & (docs & Hdb & -> & ->)%find_inr & H).
  rewrite select_nil in H.
  apply bind_inr in H as (es & s1 & Hes & H).
  apply bind_inr in H as (now & ? & [-> ->]%utcnow_inr & H).
  apply bind_inr in H as (u & ? & ->%LOGGER_info_inr & H).
  apply ret_inr in H as [-> ->]. simpl.
  exists docs, es. repeat split; [done|].
  apply (mapM_inr ticks_le) in Hes; [|intros; apply respects_admin_entry; apply _].
  apply Forall2_fmap_l in Hes.
  eapply Forall2_impl; [exact Hes|].
  intros doc e (t1 & t2 & He & Ht1 & Ht2). simpl in He.
  apply admin_entry_inr in He as [Ha Hauth].
  apply (renders_project doc e env (ticks s) (S (ticks s1))); [done|].
  unfold ticks_le in *. simpl in Ht1.
  destruct Hauth as [Hd Ht]. split; [done|].
  destruct (project admin_projection doc !! "auth_time") as [[| | | |t]|];
    try done.
  destruct Ht as (k & Hk & Ht). exists k. split; [lia|done].
Qed.


Lemma strftime_time d : strftime d "%H:%M:%S" = iso_time d.
Proof. reflexivity. Qed.






(** The shapes YYYY-MM-DD and HH:MM:SS. *)
Lemma iso_shapes d :
  String.length (iso_date d) = 10%nat
  ∧ String.get 4 (iso_date d) = Some "-"%char
  ∧ String.get 7 (iso_date d) = Some "-"%char
  ∧ String.length (iso_time d) = 8%nat
  ∧ String.get 2 (iso_time d) = Some ":"%char
  ∧ String.get 5 (iso_time d) = Some ":"%char.
Proof. repeat split. Qed.

Lemma get_adminlist_example :
  get_adminlist Example.env Example.s0
  = (Returned example_adminlist_response, example_adminlist_state).
Proof. vm_compute. reflexivity. Qed.




(** C4: the [admins] list of a successful response is the constant owner
    entry followed by one entry per stored admin record, in storage order. *)
Theorem adminlist_owner_first env s r s' docs :
  get_adminlist env s = (Returned r, s') ->
  db env auth_admins (queries s) = inr docs ->
  ∃ es, admins r = owner_entry :: es
    ∧ Forall2 renders_admin docs es
    ∧ user_id owner_entry = VInt 7666341631
    ∧ title owner_entry = VStr "Owner"
    ∧ username owner_entry = VStr "@ISmartCoder"
    ∧ auth_date owner_entry = VStr "Infinity"
    ∧ auth_time owner_entry = VStr "Infinity"
    ∧ auth_by owner_entry = VStr "Abir Arafat Chawdhury".
Proof.
  intros H Hdb.
  apply guard_handler_returned, get_adminlist_body_inv in H
    as (docs' & es & Hdb' & Hadm & Hall & _).
  rewrite Hdb in Hdb'. injection Hdb' as <-.
  exists es. repeat split; [done|].
  eapply Forall2_impl; [exact Hall|]. by intros doc e [? _].
Qed.

Lemma adminlist_owner_first_witness :
  ∃ es, admins example_adminlist_response = owner_entry :: es
        ∧ Forall2 renders_admin Example.admin_docs es.
Proof.
  destruct (adminlist_owner_first Example.env Example.s0
              example_adminlist_response example_adminlist_state
              Example.admin_docs) as (es & Hes & Hall & _).
  - vm_compute. reflexivity.
  - reflexivity.
  - exists es. split; [exact Hes|exact Hall].
Defined.

(** C10: in a successful response [total_banned] is the length of
    [banned_users], and [total_admins] is the length of [admins], which is
    the number of stored admin records plus one. *)
Theorem totals_are_lengths env s :
  (∀ r s', get_banlist env s = (Returned r, s') ->
           total_banned r = Z.of_nat (length (banlist_banned_users r)))
  ∧ (∀ r s', get_adminlist env s = (Returned r, s') ->
             total_admins r = Z.of_nat (length (admins r))
             ∧ ∃ docs, db env auth_admins (queries s) = inr docs
                       ∧ total_admins r = Z.of_nat (length docs) + 1).
Proof.
  split; intros r s' H.
  - apply guard_handler_returned, get_banlist_body_inv in H
      as (docs & _ & Hall & Htotal & _).
    by rewrite Htotal, (Forall2_length _ _ _ Hall).
  - apply guard_handler_returned, get_adminlist_body_inv in H
      as (docs & es & Hdb & Hadm & Hall & Htotal).
    split; [done|]. exists docs. split; [done|].
    rewrite Htotal, Hadm, (Forall2_length _ _ _ Hall). simpl. lia.
Qed.

Lemma totals_are_lengths_witness :
  total_banned example_banlist_response
  = Z.of_nat (length (banlist_banned_users example_banlist_response))
  ∧ total_admins example_adminlist_response
    = Z.of_nat (length (admins example_adminlist_response)).
Proof.
  destruct (totals_are_lengths Example.env Example.s0) as [Hban Hadm].
  split.
  - apply (Hban example_banlist_response example_banlist_state).
    vm_compute. reflexivity.
  - apply (Hadm example_adminlist_response example_adminlist_state).
    vm_compute. reflexivity.
Defined.

(** ** The handler boundary *)


(** Each source of failure ends in the fixed error. *)

Module Failures.

(** A database operation fails. *)
Example database_down :
  get_stats Example.env_down Example.s0
  = (Raised (mk_HTTPException 500 "Failed to retrieve stats"),
     mk_State 1 1 [] []
       [(ERROR, "Error retrieving stats: connection refused")]).
Proof. vm_compute. reflexivity. Qed.

(** [user["user_id"]] raises [KeyError]. *)
Example missing_key :
  get_banlist Example.env_ban_without_id Example.s0
  = (Raised (mk_HTTPException 500 "Failed to retrieve banlist"),
     mk_State 0 1 [] [] [(ERROR, "Error retrieving banlist: 'user_id'")]).
Proof. vm_compute. reflexivity. Qed.

(** A text [auth_time] has no [strftime]: [AttributeError]. *)
Example not_a_datetime :
  get_adminlist Example.env_text_auth_time Example.s0
  = (Raised (mk_HTTPException 500 "Failed to retrieve adminlist"),
     mk_State 1 1 [] []
       [(ERROR, "Error retrieving adminlist: 'str' object has no attribute 'strftime'")]).
Proof. vm_compute. reflexivity. Qed.

(** [now - timedelta(days=1)] leaves the calendar: [OverflowError]. *)
Example date_overflow :
  get_stats Example.env_year_one Example.s0
  = (Raised (mk_HTTPException 500 "Failed to retrieve stats"),
     mk_State 1 0 [] []
       [(ERROR, "Error retrieving stats: date value out of range")]).
Proof. vm_compute. reflexivity. Qed.

End Failures.

(** ** Start-up *)

(** The lifespan function lets the application start exactly when both
    clients answer the ping. *)
Lemma lifespan_enter_spec env s :
  match ping env MONGO_CLIENT, ping env mongo_client with
  | None, None =>
      enter lifespan env s
      = (Returned (),
         record_log INFO "Successfully connected to MongoDB for both clients"
           (record_command mongo_client (record_command MONGO_CLIENT s)))
  | _, _ =>
      (enter lifespan env s).1
      = Raised (mk_HTTPException 500 "Database connection failed")
  end.
Proof.
  unfold lifespan, enter, guard_handler, mbind, M_bind, admin_command_ping.
  destruct (ping env MONGO_CLIENT), (ping env mongo_client); reflexivity.
Qed.

(** Handlers never send a command to a client. *)
Lemma respects_get_banlist_body R
    `{!PreOrder R, !TickFrame R, !QueryFrame R, !LogFrame R} :
  respects R get_banlist_body.
Proof.
  unfold get_banlist_body. respects. destruct a; respects.
  all: unfold banned_entry; respects.
Qed.

Lemma respects_get_adminlist_body R
    `{!PreOrder R, !TickFrame R, !QueryFrame R, !LogFrame R} :
  respects R get_adminlist_body.
Proof.
  unfold get_adminlist_body.
  apply respects_bind; [apply _|respects|intros admins].
  apply respects_bind; [apply _| |intros entries; respects].
  apply respects_mapM; [apply _|]. intros admin.
  apply respects_admin_entry; apply _.
Qed.

Lemma map_outcome_state {A B} (f : A -> B) (o : outcome A * State) :
  (map_outcome f o).2 = o.2.
Proof. by destruct o as [[a|h] s]. Qed.

Lemma dispatch_commands r env s : commands (dispatch r env s).2 = commands s.
Proof.
  change (same_commands s (dispatch r env s).2).
  destruct r; unfold dispatch; rewrite map_outcome_state;
    unfold get_stats, get_banlist, get_adminlist.
  - unfold get_index, read_index. by destruct (index_html env) as [[]|].
  - apply respects_guard_handler; [apply _..|].
    unfold get_stats_body. respects.
  - apply respects_guard_handler; [apply _..|].
    apply respects_get_banlist_body; apply _.
  - apply respects_guard_handler; [apply _..|].
    apply respects_get_adminlist_body; apply _.
Qed.

Lemma handle_requests_spec reqs env s :
  length (handle_requests reqs env s).1 = length reqs
  ∧ commands (handle_requests reqs env s).2 = commands s.
Proof.
  revert s. induction reqs as [|r reqs IH]; intros s; simpl; [done|].
  pose proof (dispatch_commands r env s) as Hd.
  destruct (dispatch r env s) as [o s1]. specialize (IH s1).
  destruct (handle_requests reqs env s1) as [os s2]. simpl in *.
  destruct IH as [-> ->]. done.
Qed.

(** Had the lifespan been given to the constructor, a failed ping would
    keep the server from handling any request. *)
Lemma registered_lifespan_gates t d reqs env s :
  ping env MONGO_CLIENT ≠ None ∨ ping env mongo_client ≠ None ->
  (serve (FastAPI_new t d (Some lifespan)) reqs env s).1 = [].
Proof.
  intros Hping. unfold serve, lifespan_context, FastAPI_new. simpl default.
  pose proof (lifespan_enter_spec env s) as Hspec.
  destruct (ping env MONGO_CLIENT), (ping env mongo_client);
    try (destruct (enter lifespan env s) as [o s1]; simpl in Hspec;
         by rewrite Hspec).
  by destruct Hping.
Qed.

(** C1 (not met by the application as built): [lifespan] is stored as an
    attribute of [app] and never reaches the router, so start-up runs the
    default context.  Every request is handled and no liveness command is
    ever issued, whatever the clients would answer to a ping. *)
Theorem app_serves_without_liveness_check reqs env s :
  router_lifespan_context app = None
  ∧ instance_attributes app !! "lifespan" = Some lifespan
  ∧ length (serve app reqs env s).1 = length reqs
  ∧ commands (serve app reqs env s).2 = commands s.
Proof.
  split; [done|]. split; [done|].
  unfold serve, lifespan_context, app, setattr, FastAPI_new. simpl.
  pose proof (handle_requests_spec reqs env s) as [Hlen Hcmd].
  by destruct (handle_requests reqs env s) as [os s1].
Qed.

(** With both pings failing, a stats request is still answered. *)
Example stats_served_while_ping_fails :
  serve app [GET_stats] Example.env_ping_fails Example.s0
  = ([Returned (StatsBody Example.stats_response)], Example.stats_state).
Proof. vm_compute. reflexivity. Qed.

(** * Further properties *)

(** ** GET /api/stats: when it answers and what it counts *)

Lemma sub_in_range now n c :
  Datetime.sub now (td_days n) = Some c ->
  in_range (micros now - n * US_PER_DAY) = true.
Proof.
  unfold Datetime.sub, td_days. simpl.
  by destruct (in_range (micros now - n * US_PER_DAY)).
Qed.

Lemma sub_td_days now n :
  in_range (micros now - n * US_PER_DAY) = true ->
  Datetime.sub now (td_days n) = Some (days_before now n).
Proof. unfold Datetime.sub, td_days, days_before. simpl. by intros ->. Qed.

Lemma in_range_earlier now n m :
  0 <= m <= n ->
  in_range (micros now) = true ->
  in_range (micros now - n * US_PER_DAY) = true ->
  in_range (micros now - m * US_PER_DAY) = true.
Proof.
  unfold in_range, US_PER_DAY, US_PER_SECOND, MAXORDINAL.
  rewrite !andb_true_iff, !Z.leb_le, !Z.ltb_lt. lia.
Qed.

Lemma get_stats_body_cutoff env s r s' :
  get_stats_body env s = (inr r, s') ->
  in_range (micros (clock env (ticks s)) - 365 * US_PER_DAY) = true.
Proof.
  unfold get_stats_body. intros H.
  apply bind_inr in H as (now & s1 & [-> ->]%utcnow_inr & H).
  apply bind_inr in H as (c1 & ? & _ & H).
  apply bind_inr in H as (n1 & ? & _ & H).
  apply bind_inr in H as (c2 & ? & _ & H).
  apply bind_inr in H as (n2 & ? & _ & H).
  apply bind_inr in H as (c3 & ? & _ & H).
  apply bind_inr in H as (n3 & ? & _ & H).
  apply bind_inr in H as (c4 & ? & [Hsub _]%sub_timedelta_inr & _).
  by apply sub_in_range in Hsub.
Qed.

(** X1: for a clock reading that is a valid datetime, the stats request is
    answered exactly when the reading lies at least 365 days after
    0001-01-01 and all six counting operations succeed. *)
Theorem get_stats_returns_iff env s :
  in_range (micros (clock env (ticks s))) = true ->
  (∃ r, (get_stats env s).1 = Returned r)
  ↔ 365 * US_PER_DAY <= micros (clock env (ticks s))
    ∧ ∀ k, (k < 6)%nat ->
           ∃ docs, db env user_activity_collection (queries s + k) = inr docs.
Proof.
  intros Hnow. split.
  - intros [r Hr]. destruct (get_stats env s) as [o s'] eqn:H.
    simpl in Hr. subst o. apply guard_handler_returned in H.
    split.
    + apply get_stats_body_cutoff in H. revert H.
      unfold in_range. rewrite andb_true_iff, Z.leb_le. intros [Hlo _]. lia.
    + apply get_stats_body_inv in H
        as (_ & _ & (d0 & H0 & _) & (d1 & H1 & _) & (d2 & H2 & _)
            & (d3 & H3 & _) & (d4 & H4 & _) & (d5 & H5 & _)).
      rewrite <- (Nat.add_0_r (queries s)) in H0.
      intros k Hk.
      destruct k as [|[|[|[|[|[|k]]]]]]; [eauto..|lia].
  - intros [Hyear Hviews].
    assert (in_range (micros (clock env (ticks s)) - 365 * US_PER_DAY) = true)
      as H365.
    { revert Hnow. unfold in_range, US_PER_DAY, US_PER_SECOND, MAXORDINAL in *.
      rewrite !andb_true_iff, !Z.leb_le, !Z.ltb_lt. lia. }
    pose proof (sub_td_days _ _ H365) as E365.
    pose proof (sub_td_days _ 30
                  (in_range_earlier _ 365 30 ltac:(lia) Hnow H365)) as E30.
    pose proof (sub_td_days _ 7
                  (in_range_earlier _ 365 7 ltac:(lia) Hnow H365)) as E7.
    pose proof (sub_td_days _ 1
                  (in_range_earlier _ 365 1 ltac:(lia) Hnow H365)) as E1.
    destruct (Hviews 0%nat ltac:(lia)) as [d0 H0].
    destruct (Hviews 1%nat ltac:(lia)) as [d1 H1].
    destruct (Hviews 2%nat ltac:(lia)) as [d2 H2].
    destruct (Hviews 3%nat ltac:(lia)) as [d3 H3].
    destruct (Hviews 4%nat ltac:(lia)) as [d4 H4].
    destruct (Hviews 5%nat ltac:(lia)) as [d5 H5].
    rewrite Nat.add_0_r in H0.
    replace (queries s + 1)%nat with (S (queries s)) in H1 by lia.
    replace (queries s + 2)%nat with (S (S (queries s))) in H2 by lia.
    replace (queries s + 3)%nat with (S (S (S (queries s)))) in H3 by lia.
    replace (queries s + 4)%nat with (S (S (S (S (queries s))))) in H4 by lia.
    replace (queries s + 5)%nat with (S (S (S (S (S (queries s)))))) in H5
      by lia.
    change (td_weeks 1) with (td_days 7) in *.
    unfold get_stats, guard_handler, get_stats_body, mbind, M_bind, utcnow,
      sub_timedelta, count_documents, db_read, LOGGER_info, mret, M_ret,
      mbind, M_bind.
    change (td_weeks 1) with (td_days 7).
    rewrite E1, E7, E30, E365. cbn [queries tick count_query].
    rewrite H0. cbn [queries tick count_query].
    rewrite H1. cbn [queries tick count_query].
    rewrite H2. cbn [queries tick count_query].
    rewrite H3. cbn [queries tick count_query].
    rewrite H4. cbn [queries tick count_query].
    rewrite H5. eauto.
Qed.

Lemma get_stats_returns_iff_witness :
  ∃ r, (get_stats Example.env Example.s0).1 = Returned r.
Proof.
  apply (get_stats_returns_iff Example.env Example.s0).
  - vm_compute. reflexivity.
  - split.
    + vm_compute. discriminate.
    + intros k _. eexists. reflexivity.
Defined.

Lemma active_since_is_user cutoff d :
  matches (active_since cutoff) d = true ->
  matches [("is_group", Eq (VBool false))] d = true.
Proof.
  unfold matches, active_since. cbn [forallb fst snd].
  by destruct (holds (Eq (VBool false)) (d !! "is_group")).
Qed.

Lemma select_length_le q docs : (length (select q docs) <= length docs)%nat.
Proof.
  unfold select. induction docs as [|d docs IH]; simpl; [lia|].
  destruct (matches q d); simpl; lia.
Qed.

(** X2: when the six counts see the same collection, no windowed count
    exceeds [total_users], and neither [total_users] nor [total_groups]
    exceeds the number of records. *)
Theorem stats_counts_bounded env s r s' docs :
  get_stats env s = (Returned r, s') ->
  (∀ k, (k < 6)%nat ->
        db env user_activity_collection (queries s + k) = inr docs) ->
  0 <= daily_users (stats r)
  ∧ yearly_users (stats r) <= total_users (stats r)
  ∧ total_users (stats r) <= Z.of_nat (length docs)
  ∧ 0 <= total_groups (stats r)
  ∧ total_groups (stats r) <= Z.of_nat (length docs).
Proof.
  intros H Hdocs.
  pose proof (get_stats_body_inv _ _ _ _ (guard_handler_returned _ _ _ _ _ _ _ H))
    as (_ & _ & (d0 & E0 & ->) & _ & _ & (d3 & E3 & ->) & (d4 & E4 & ->)
        & (d5 & E5 & ->)).
  pose proof (Hdocs 0%nat ltac:(lia)) as D0. rewrite Nat.add_0_r in D0.
  rewrite D0 in E0. rewrite (Hdocs 3%nat) in E3 by lia.
  rewrite (Hdocs 4%nat) in E4 by lia. rewrite (Hdocs 5%nat) in E5 by lia.
  injection E0 as <-. injection E3 as <-. injection E4 as <-. injection E5 as <-.
  pose proof (select_length_le [("is_group", Eq (VBool false))] docs).
  pose proof (select_length_le [("is_group", Eq (VBool true))] docs).
  repeat split; try lia.
  apply inj_le, select_length_mono. intros d. apply active_since_is_user.
Qed.

Lemma stats_counts_bounded_witness :
  yearly_users (stats Example.stats_response)
  <= total_users (stats Example.stats_response)
  ∧ total_users (stats Example.stats_response)
    <= Z.of_nat (length Example.activities)
  ∧ total_groups (stats Example.stats_response)
    <= Z.of_nat (length Example.activities).
Proof.
  destruct (stats_counts_bounded Example.env Example.s0 Example.stats_response
              Example.stats_state Example.activities)
    as (_ & Hy & Hu & _ & Hg).
  - vm_compute. reflexivity.
  - intros k _. reflexivity.
  - split; [exact Hy|]. split; [exact Hu|exact Hg].
Defined.

(** A record that moved forward is still active since any earlier cutoff. *)
Lemma advanced_active (a b : document) (later earlier : datetime) :
  advanced a b ->
  micros earlier <= micros later ->
  matches (active_since later) a = true ->
  matches (active_since earlier) b = true.
Proof.
  intros [Hgroup Htime] Hle. unfold matches, active_since.
  cbn [forallb fst snd]. rewrite <- Hgroup.
  destruct (holds (Eq (VBool false)) (a !! "is_group")); [|done].
  rewrite !andb_true_l, !andb_true_r.
  revert Htime.
  destruct (a !! "last_activity") as [[| | | |t]|]; cbn [holds]; try done.
  destruct (b !! "last_activity") as [[| | | |t']|]; try done.
  cbn [holds]. intros Htime Hlt%Z.leb_le. apply Z.leb_le.
  etrans; [|etrans; [exact Hlt|]]; unfold bson_millis;
    apply Z.div_le_mono; lia.
Qed.

Lemma evolves_select_le docs docs' (later earlier : datetime) :
  evolves docs docs' ->
  micros earlier <= micros later ->
  (length (select (active_since later) docs)
   <= length (select (active_since earlier) docs'))%nat.
Proof.
  intros (kept & added & -> & Hall) Hle. unfold select.
  rewrite List.filter_app, length_app.
  etrans; [|apply Nat.le_add_r].
  induction Hall as [|a b docs kept Hab _ IH]; [done|].
  cbn [List.filter].
  destruct (matches (active_since later) a) eqn:Ha.
  - rewrite (advanced_active a b later earlier Hab Hle Ha). cbn [length]. lia.
  - destruct (matches (active_since earlier) b); cbn [length]; lia.
Qed.

(** X3: the four windows stay nested when the collection changes between
    the four queries, as long as every change moves a [last_activity]
    forward or adds a record. *)
Theorem stats_nested_under_updates env s r s' d0 d1 d2 d3 :
  get_stats env s = (Returned r, s') ->
  db env user_activity_collection (queries s) = inr d0 ->
  db env user_activity_collection (queries s + 1) = inr d1 ->
  db env user_activity_collection (queries s + 2) = inr d2 ->
  db env user_activity_collection (queries s + 3) = inr d3 ->
  evolves d0 d1 -> evolves d1 d2 -> evolves d2 d3 ->
  daily_users (stats r) <= weekly_users (stats r)
  ∧ weekly_users (stats r) <= monthly_users (stats r)
  ∧ monthly_users (stats r) <= yearly_users (stats r).
Proof.
  intros H H0 H1 H2 H3 E01 E12 E23.
  pose proof (get_stats_body_inv _ _ _ _ (guard_handler_returned _ _ _ _ _ _ _ H))
    as (_ & _ & (x0 & X0 & ->) & (x1 & X1 & ->) & (x2 & X2 & ->)
        & (x3 & X3 & ->) & _).
  rewrite H0 in X0. rewrite H1 in X1. rewrite H2 in X2. rewrite H3 in X3.
  injection X0 as <-. injection X1 as <-. injection X2 as <-. injection X3 as <-.
  repeat split; apply inj_le, evolves_select_le; try done;
    unfold days_before, US_PER_DAY, US_PER_SECOND; simpl; lia.
Qed.

Ltac advanced_pair :=
  split; [reflexivity|vm_compute; intros Hgt; discriminate Hgt].

Lemma stats_nested_under_updates_witness :
  daily_users (stats Scenario.stats_response)
  <= weekly_users (stats Scenario.stats_response)
  ∧ weekly_users (stats Scenario.stats_response)
    <= monthly_users (stats Scenario.stats_response)
  ∧ monthly_users (stats Scenario.stats_response)
    <= yearly_users (stats Scenario.stats_response).
Proof.
  apply (stats_nested_under_updates Scenario.env Example.s0
           Scenario.stats_response Scenario.stats_state
           (Scenario.view 0) (Scenario.view 1) (Scenario.view 2)
           (Scenario.view 3)).
  - vm_compute. reflexivity.
  - reflexivity.
  - reflexivity.
  - reflexivity.
  - reflexivity.
  - exists (Scenario.view 1), []. split; [reflexivity|].
    unfold Scenario.view, Example.activities.
    repeat (constructor; [advanced_pair|]). constructor.
  - exists (Scenario.view 1), [Example.activity 7 false 0].
    split; [reflexivity|]. unfold Scenario.view.
    repeat (constructor; [advanced_pair|]). constructor.
  - exists (Scenario.view 2), []. split; [reflexivity|].
    unfold Scenario.view.
    repeat (constructor; [advanced_pair|]). constructor.
Defined.

(** ** The list endpoints: when they answer *)

Lemma bind_ok {A B} (m : M A) (f : A -> M B) env s a s1 :
  m env s = (inr a, s1) -> (m ≫= f) env s = f a env s1.
Proof. unfold mbind, M_bind. by intros ->. Qed.

Lemma find_ok c q proj env s docs :
  db env c (queries s) = inr docs ->
  find c q proj env s
  = (inr (match proj with
          | Some fields => project fields <$> select q docs
          | None => select q docs
          end), count_query s).
Proof. unfold find, db_read, mbind, M_bind, mret, M_ret. by intros ->. Qed.

Lemma find_failed c q proj env s e :
  db env c (queries s) = inl e ->
  find c q proj env s = (inl e, count_query s).
Proof. unfold find, db_read, mbind, M_bind. by intros ->. Qed.

(** If [f] succeeds on every element from every state, so does [mapM f]. *)
Lemma mapM_ok {A B} (f : A -> M B) (l : list A) env :
  Forall (λ a, ∀ s, ∃ b s', f a env s = (inr b, s')) l ->
  ∀ s, ∃ bs s', mapM f l env s = (inr bs, s').
Proof.
  induction 1 as [|a l Ha _ IH]; intros s; simpl.
  - by exists [], s.
  - destruct (Ha s) as (b & s1 & Hb). destruct (IH s1) as (bs & s2 & Hbs).
    exists (b :: bs), s2.
    rewrite (bind_ok _ _ _ _ _ _ Hb), (bind_ok _ _ _ _ _ _ Hbs). done.
Qed.

Lemma banned_entry_ok user env s :
  ban_renderable user = true -> ∃ e s', banned_entry user env s = (inr e, s').
Proof.
  unfold ban_renderable, banned_entry, subscript, mbind, M_bind, mret, M_ret.
  destruct (user !! "user_id"); [eauto|done].
Qed.

(** X4: the ban list is returned exactly when the collection can be read
    and every stored record has a [user_id]; one record without it fails
    the whole request. *)
Theorem get_banlist_returns_iff env s :
  (∃ r, (get_banlist env s).1 = Returned r)
  ↔ ∃ docs, db env banned_users (queries s) = inr docs
            ∧ Forall (λ d, ban_renderable d = true) docs.
Proof.
  split.
  - intros [r Hr]. destruct (get_banlist env s) as [o s'] eqn:H.
    simpl in Hr. subst o.
    apply guard_handler_returned, get_banlist_body_inv in H
      as (docs & Hdb & Hall & _).
    exists docs. split; [done|].
    clear Hdb.
    induction Hall as [|d e docs es (Hid & _) _ IH];
      [constructor|constructor; [|done]].
    unfold ban_renderable. by rewrite Hid.
  - intros (docs & Hdb & Hall).
    unfold get_banlist, guard_handler, get_banlist_body.
    rewrite (bind_ok _ _ _ _ _ _ (find_ok _ [] None _ _ _ Hdb)).
    rewrite select_nil. destruct docs as [|d docs]; [by eexists|].
    destruct (mapM_ok banned_entry (d :: docs) env) with (s := count_query s)
      as (es & s1 & Hes).
    { eapply Forall_impl; [exact Hall|].
      intros x Hx t. by apply banned_entry_ok. }
    rewrite (bind_ok _ _ _ _ _ _ Hes). by eexists.
Qed.

Lemma admin_renderable_project doc :
  admin_renderable (project admin_projection doc) = admin_renderable doc.
Proof.
  unfold admin_renderable.
  by rewrite !project_lookup by (unfold admin_projection; set_solver).
Qed.

Lemma admin_entry_ok admin env s :
  admin_renderable admin = true ->
  ∃ e s', admin_entry admin env s = (inr e, s').
Proof.
  unfold admin_renderable, admin_entry, admin_auth_date, admin_auth_time,
    subscript, dict_get_none, dict_get, utcnow, strftime_value, mbind, M_bind,
    mret, M_ret.
  destruct (admin !! "user_id"); [|done].
  destruct (admin !! "title"); [|done].
  destruct (admin !! "auth_time") as [[| | | |t]|]; try done;
    destruct (admin !! "auth_date") as [[| | | |d]|]; simpl; eauto.
Qed.

Lemma renders_admin_renderable env lo hi doc e :
  renders_admin doc e -> renders_auth env lo hi doc e ->
  admin_renderable doc = true.
Proof.
  intros (Hid & Htitle & _) [_ Htime]. unfold admin_renderable.
  rewrite Hid, Htitle.
  by destruct (doc !! "auth_time") as [[| | | |t]|].
Qed.

(** X5: the admin list is returned exactly when the collection can be read
    and every stored record has [user_id] and [title] and an [auth_time]
    that is absent or a datetime; [auth_date] never makes it fail. *)
Theorem get_adminlist_returns_iff env s :
  (∃ r, (get_adminlist env s).1 = Returned r)
  ↔ ∃ docs, db env auth_admins (queries s) = inr docs
            ∧ Forall (λ d, admin_renderable d = true) docs.
Proof.
  split.
  - intros [r Hr]. destruct (get_adminlist env s) as [o s'] eqn:H.
    simpl in Hr. subst o.
    apply guard_handler_returned, get_adminlist_body_inv in H
      as (docs & es & Hdb & _ & Hall & _).
    exists docs. split; [done|].
    clear Hdb.
    induction Hall as [|d e docs es [Ha Hauth] _ IH];
      [constructor|constructor; [|done]].
    by eapply renders_admin_renderable.
  - intros (docs & Hdb & Hall).
    unfold get_adminlist, guard_handler, get_adminlist_body.
    rewrite (bind_ok _ _ _ _ _ _
               (find_ok _ [] (Some admin_projection) _ _ _ Hdb)).
    rewrite select_nil.
    destruct (mapM_ok admin_entry (project admin_projection <$> docs) env)
      with (s := count_query s) as (es & s1 & Hes).
    { apply Forall_fmap. eapply Forall_impl; [exact Hall|].
      intros x Hx t. apply admin_entry_ok. simpl.
      by rewrite admin_renderable_project. }
    rewrite (bind_ok _ _ _ _ _ _ Hes). by eexists.
Qed.

(** ** The list endpoints: what reaches the response *)

Lemma db_free_ret {A} (a : A) : db_free (mret a).
Proof. done. Qed.

Lemma db_free_bind {A B} (m : M A) (f : A -> M B) :
  db_free m -> (∀ a, db_free (f a)) -> db_free (m ≫= f).
Proof.
  intros Hm Hf env d s. unfold mbind, M_bind. rewrite Hm.
  destruct (m env s) as [[e|a] s1]; [done|apply Hf].
Qed.

Lemma db_free_utcnow : db_free utcnow.
Proof. done. Qed.

Lemma db_free_LOGGER_info msg : db_free (LOGGER_info msg).
Proof. done. Qed.

Lemma db_free_subscript doc k : db_free (subscript doc k).
Proof. intros env d s. unfold subscript. by destruct (doc !! k). Qed.

Lemma db_free_strftime_value v fmt : db_free (strftime_value v fmt).
Proof. intros env d s. by destruct v. Qed.

Lemma db_free_mapM {A B} (f : A -> M B) (l : list A) :
  (∀ a, db_free (f a)) -> db_free (mapM f l).
Proof.
  intros Hf. induction l as [|a l IH]; simpl; [apply db_free_ret|].
  apply db_free_bind; [apply Hf|]. intros b.
  apply db_free_bind; [apply IH|]. intros bs. apply db_free_ret.
Qed.

Create HintDb db_free.
#[local] Hint Resolve db_free_ret db_free_utcnow db_free_LOGGER_info
  db_free_subscript db_free_strftime_value : db_free.

Ltac db_free :=
  repeat (apply db_free_bind; [solve [auto with db_free]|intros]);
  auto with db_free.

Lemma db_free_banned_entry user : db_free (banned_entry user).
Proof. unfold banned_entry. db_free. Qed.

Lemma db_free_admin_entry admin : db_free (admin_entry admin).
Proof.
  unfold admin_entry. db_free.
  apply db_free_bind; [|intros; db_free].
  - unfold admin_auth_date. destruct (isinstance_datetime _); db_free.
  - apply db_free_bind; [unfold admin_auth_time; db_free|intros; db_free].
Qed.

Lemma project_agree fields d d' :
  agree_on fields d d' -> project fields d = project fields d'.
Proof.
  intros Hagree. apply map_eq. intros k.
  destruct (decide (k ∈ fields)) as [Hk|Hk].
  - rewrite !project_lookup by done. by apply Hagree.
  - unfold project. etrans; [|symmetry];
      apply map_lookup_filter_None; right; by intros x _ Hin.
Qed.

Lemma project_all_agree fields (docs docs' : list document) :
  Forall2 (agree_on fields) docs docs' ->
  project fields <$> docs' = project fields <$> docs.
Proof.
  induction 1 as [|a b l l' Hab _ IH]; [done|].
  by rewrite !fmap_cons, IH, (project_agree _ _ _ Hab).
Qed.

(** X6: the admin list depends only on the seven projected fields of each
    stored record; whatever else a record holds never changes the answer. *)
Theorem adminlist_ignores_other_fields env d' s docs docs' :
  db env auth_admins (queries s) = inr docs ->
  d' auth_admins (queries s) = inr docs' ->
  Forall2 (agree_on admin_projection) docs docs' ->
  get_adminlist (with_db d' env) s = get_adminlist env s.
Proof.
  intros Hdb Hdb' Hagree.
  pose proof (project_all_agree _ _ _ Hagree) as Hsame.
  unfold get_adminlist, guard_handler, get_adminlist_body.
  rewrite (bind_ok _ _ _ _ _ _
             (find_ok _ [] (Some admin_projection) (with_db d' env) _ _ Hdb')).
  rewrite (bind_ok _ _ _ _ _ _
             (find_ok _ [] (Some admin_projection) env _ _ Hdb)).
  rewrite !select_nil, Hsame.
  match goal with
  | |- context [?m (with_db d' env) (count_query s)] =>
      assert (db_free m) as ->; [|done]
  end.
  apply db_free_bind; [apply db_free_mapM, db_free_admin_entry|].
  intros entries. db_free.
Qed.

Lemma adminlist_ignores_other_fields_witness :
  get_adminlist
    (with_db (λ _ _, inr Scenario.admin_docs_extra) Example.env) Example.s0
  = get_adminlist Example.env Example.s0.
Proof.
  apply (adminlist_ignores_other_fields Example.env _ Example.s0
           Example.admin_docs Scenario.admin_docs_extra).
  - reflexivity.
  - reflexivity.
  - unfold Example.admin_docs, Scenario.admin_docs_extra.
    repeat constructor; intros k Hk; unfold admin_projection in Hk;
      repeat (apply elem_of_cons in Hk as [->|Hk]; [vm_compute; reflexivity|]);
      by apply elem_of_nil in Hk.
Defined.

Lemma banned_entry_agree d d' env s :
  agree_on banlist_fields d d' -> banned_entry d env s = banned_entry d' env s.
Proof.
  intros Hagree. unfold banned_entry, subscript, dict_get.
  by rewrite !(Hagree _) by (unfold banlist_fields; set_solver).
Qed.

Lemma mapM_banned_entry_agree docs docs' env s :
  Forall2 (agree_on banlist_fields) docs docs' ->
  mapM banned_entry docs env s = mapM banned_entry docs' env s.
Proof.
  intros Hagree. revert s.
  induction Hagree as [|a b l l' Hab _ IH]; intros s; [done|].
  simpl. unfold mbind, M_bind. rewrite (banned_entry_agree a b env s Hab).
  destruct (banned_entry b env s) as [[e|x] s1]; [done|].
  by rewrite IH.
Qed.

Lemma bind_ext_l {A B} (m m' : M A) (f : A -> M B) env s :
  m env s = m' env s -> (m ≫= f) env s = (m' ≫= f) env s.
Proof. unfold mbind, M_bind. by intros ->. Qed.

(** X7: the ban list depends only on [user_id], [username], [reason] and
    [ban_date] of each stored record. *)
Theorem banlist_ignores_other_fields env d' s docs docs' :
  db env banned_users (queries s) = inr docs ->
  d' banned_users (queries s) = inr docs' ->
  Forall2 (agree_on banlist_fields) docs docs' ->
  get_banlist (with_db d' env) s = get_banlist env s.
Proof.
  intros Hdb Hdb' Hagree.
  unfold get_banlist, guard_handler, get_banlist_body.
  rewrite (bind_ok _ _ _ _ _ _ (find_ok _ [] None (with_db d' env) _ _ Hdb')).
  rewrite (bind_ok _ _ _ _ _ _ (find_ok _ [] None env _ _ Hdb)).
  rewrite !select_nil.
  pose proof (Forall2_length _ _ _ Hagree) as Hlen.
  destruct Hagree as [|a b l l' Hab Hrest]; [done|].
  assert (Forall2 (agree_on banlist_fields) (a :: l) (b :: l')) as Hall
    by by constructor.
  rewrite <- Hlen.
  match goal with
  | |- context [?m (with_db d' env) (count_query s)] =>
      assert (db_free m) as ->
  end.
  { apply db_free_bind; [apply db_free_mapM, db_free_banned_entry|].
    intros entries. db_free. }
  rewrite (bind_ext_l _ (mapM banned_entry (a :: l)) _ env (count_query s));
    [done|].
  symmetry. by apply mapM_banned_entry_agree.
Qed.

Lemma banlist_ignores_other_fields_witness :
  get_banlist (with_db (λ _ _, inr Scenario.bans_extra) Example.env) Example.s0
  = get_banlist Example.env Example.s0.
Proof.
  apply (banlist_ignores_other_fields Example.env _ Example.s0
           Example.bans Scenario.bans_extra).
  - reflexivity.
  - reflexivity.
  - unfold Example.bans, Scenario.bans_extra.
    repeat constructor; intros k Hk; unfold banlist_fields in Hk;
      repeat (apply elem_of_cons in Hk as [->|Hk]; [vm_compute; reflexivity|]);
      by apply elem_of_nil in Hk.
Defined.

(** ** Start-up, shutdown and the clients *)

(** X8: entering [lifespan] pings [MONGO_CLIENT] and then [mongo_client];
    it returns exactly when both answer, raises the fixed status-500
    exception otherwise, and does not ping the second client once the first
    ping has failed. *)
Theorem lifespan_enter_gate env s :
  ((enter lifespan env s).1 = Returned ()
   ↔ ping env MONGO_CLIENT = None ∧ ping env mongo_client = None)
  ∧ ((enter lifespan env s).1 = Returned ()
     ∨ (enter lifespan env s).1
       = Raised (mk_HTTPException 500 "Database connection failed"))
  ∧ commands (enter lifespan env s).2
    = (commands s
       ++ match ping env MONGO_CLIENT with
          | None => [MONGO_CLIENT; mongo_client]
          | Some _ => [MONGO_CLIENT]
          end)%list.
Proof.
  unfold lifespan, enter, guard_handler, mbind, M_bind, admin_command_ping,
    LOGGER_info.
  destruct (ping env MONGO_CLIENT), (ping env mongo_client); simpl;
    rewrite <- ?app_assoc; repeat split; try done; auto;
    by intros [??].
Qed.

#[global] Instance same_closed_preorder : PreOrder same_closed.
Proof. split; unfold same_closed; [by intros ?|intros ???; congruence]. Qed.
#[global] Instance same_closed_tick : TickFrame same_closed.
Proof. by intros s. Qed.
#[global] Instance same_closed_query : QueryFrame same_closed.
Proof. by intros s. Qed.
#[global] Instance same_closed_log : LogFrame same_closed.
Proof. by intros l msg s. Qed.

Lemma dispatch_respects R
    `{!PreOrder R, !TickFrame R, !QueryFrame R, !LogFrame R} r env s :
  R s (dispatch r env s).2.
Proof.
  destruct r; unfold dispatch; rewrite map_outcome_state;
    unfold get_stats, get_banlist, get_adminlist.
  - unfold get_index, read_index.
    destruct (index_html env) as [[]|]; simpl;
      first [reflexivity|apply log_frame].
  - apply respects_guard_handler; [apply _..|].
    unfold get_stats_body. respects.
  - apply respects_guard_handler; [apply _..|].
    apply respects_get_banlist_body; apply _.
  - apply respects_guard_handler; [apply _..|].
    apply respects_get_adminlist_body; apply _.
Qed.

Lemma handle_requests_respects R
    `{!PreOrder R, !TickFrame R, !QueryFrame R, !LogFrame R} reqs env s :
  R s (handle_requests reqs env s).2.
Proof.
  revert s. induction reqs as [|r reqs IH]; intros s; simpl; [reflexivity|].
  pose proof (dispatch_respects R r env s) as Hd.
  destruct (dispatch r env s) as [o s1]. specialize (IH s1).
  destruct (handle_requests reqs env s1) as [os s2]. simpl in *.
  by etrans.
Qed.

(** X9: handling a request, whichever route and outcome, never sends a
    command to a database client and never closes one. *)
Theorem handlers_never_touch_clients r env s :
  commands (dispatch r env s).2 = commands s
  ∧ closed (dispatch r env s).2 = closed s.
Proof.
  split.
  - apply (dispatch_respects same_commands).
  - apply (dispatch_respects same_closed).
Qed.

(** X10: the application object as the module builds it never runs the
    code after the [yield] of [lifespan]: whatever was served, neither
    client is closed when the server stops. *)
Theorem app_never_closes_clients reqs env s :
  closed (serve app reqs env s).2 = closed s.
Proof.
  unfold serve, lifespan_context, app, setattr, FastAPI_new. simpl.
  pose proof (handle_requests_respects same_closed reqs env s) as Hc.
  by destruct (handle_requests reqs env s) as [os s1].
Qed.

(** ** Database operations per request *)

Lemma reads_ret {A} (a : A) : reads 0 0 (mret a).
Proof. intros env s. simpl. split; [lia|done]. Qed.

Lemma reads_raise {A} e : reads 0 0 (raise (A := A) e).
Proof. intros env s. simpl. split; [lia|done]. Qed.

Lemma reads_bind {A B} lo1 hi1 lo2 hi2 (m : M A) (f : A -> M B) :
  reads lo1 hi1 m -> (∀ a, reads lo2 hi2 (f a)) ->
  reads lo1 (hi1 + hi2) (m ≫= f).
Proof.
  intros Hm Hf env s. unfold mbind, M_bind.
  destruct (Hm env s) as [Hbound Hexact].
  destruct (m env s) as [[e|a] s1]; simpl in *.
  - split; [lia|done].
  - specialize (Hexact a eq_refl). destruct (Hf a env s1) as [Hb He].
    split; [lia|]. intros b Hb'. rewrite (He b Hb'). lia.
Qed.

(** A step that reads nothing, and a step that reads once. *)
Lemma reads_after {A B} lo hi (m : M A) (f : A -> M B) :
  reads 0 0 m -> (∀ a, reads lo hi (f a)) -> reads 0 hi (m ≫= f).
Proof. intros Hm Hf. by apply (reads_bind 0 0 lo hi). Qed.

Lemma reads_once_then {A B} lo hi (m : M A) (f : A -> M B) :
  reads 1 1 m -> (∀ a, reads lo hi (f a)) -> reads 1 (S hi) (m ≫= f).
Proof. intros Hm Hf. by apply (reads_bind 1 1 lo hi). Qed.

Lemma reads_utcnow : reads 0 0 utcnow.
Proof. intros env s. simpl. split; [lia|done]. Qed.

Lemma reads_LOGGER_info msg : reads 0 0 (LOGGER_info msg).
Proof. intros env s. simpl. split; [lia|done]. Qed.

Lemma reads_subscript d k : reads 0 0 (subscript d k).
Proof. unfold subscript. destruct (d !! k); [apply reads_ret|apply reads_raise]. Qed.

Lemma reads_sub_timedelta d td : reads 0 0 (sub_timedelta d td).
Proof.
  unfold sub_timedelta.
  destruct (Datetime.sub d td); [apply reads_ret|apply reads_raise].
Qed.

Lemma reads_strftime_value v fmt : reads 0 0 (strftime_value v fmt).
Proof. destruct v; first [apply reads_ret|apply reads_raise]. Qed.

Lemma reads_db_read c : reads 1 1 (db_read c).
Proof. intros env s. simpl. split; [lia|intros; lia]. Qed.

Lemma reads_count_documents c q : reads 1 1 (count_documents c q).
Proof.
  apply (reads_once_then 0 0); [apply reads_db_read|intros; apply reads_ret].
Qed.

Lemma reads_find c q proj : reads 1 1 (find c q proj).
Proof.
  apply (reads_once_then 0 0); [apply reads_db_read|intros; apply reads_ret].
Qed.

Lemma reads_mapM {A B} (f : A -> M B) (l : list A) :
  (∀ a, reads 0 0 (f a)) -> reads 0 0 (mapM f l).
Proof.
  intros Hf. induction l as [|a l IH]; simpl; [apply reads_ret|].
  apply (reads_after 0); [apply Hf|]. intros b.
  apply (reads_after 0); [apply IH|]. intros bs. apply reads_ret.
Qed.

Ltac reads_step :=
  first
    [ apply reads_ret | apply reads_raise | apply reads_utcnow
    | apply reads_LOGGER_info | apply reads_subscript
    | apply reads_sub_timedelta | apply reads_strftime_value
    | apply reads_count_documents | apply reads_find
    | eapply reads_once_then; [solve [reads_step]|intros]
    | eapply reads_after; [solve [reads_step]|intros] ].

Ltac reads := repeat reads_step.

Lemma reads_banned_entry user : reads 0 0 (banned_entry user).
Proof. unfold banned_entry. reads. Qed.

Lemma reads_admin_entry admin : reads 0 0 (admin_entry admin).
Proof.
  unfold admin_entry. reads.
  eapply reads_after.
  - unfold admin_auth_date. destruct (isinstance_datetime _); reads.
  - intros. eapply reads_after; [unfold admin_auth_time; reads|intros; reads].
Qed.

Lemma reads_get_stats_body : reads 0 6 get_stats_body.
Proof. unfold get_stats_body. reads. Qed.

Lemma reads_get_banlist_body : reads 1 1 get_banlist_body.
Proof.
  unfold get_banlist_body. eapply reads_once_then; [apply reads_find|].
  intros [|d docs].
  - reads.
  - eapply reads_after; [apply reads_mapM, reads_banned_entry|]. intros. reads.
Qed.

Lemma reads_get_adminlist_body : reads 1 1 get_adminlist_body.
Proof.
  unfold get_adminlist_body. eapply reads_once_then; [apply reads_find|].
  intros docs.
  eapply reads_after; [apply reads_mapM, reads_admin_entry|]. intros. reads.
Qed.

Lemma guard_handler_queries {A} prefix msg (m : M A) env s :
  queries (guard_handler prefix msg m env s).2 = queries (m env s).2
  ∧ ∀ a, (guard_handler prefix msg m env s).1 = Returned a ->
         (m env s).1 = inr a.
Proof.
  unfold guard_handler. destruct (m env s) as [[e|a] s1]; simpl.
  - split; [done|]. by intros a.
  - split; [done|]. by intros a' [= ->].
Qed.

(** Running the stats handler on an arbitrary environment, one case per
    point where it can stop. *)
Ltac run_stats :=
  cbv [get_stats guard_handler get_stats_body mbind M_bind utcnow
       sub_timedelta count_documents db_read LOGGER_info mret M_ret raise];
  repeat match goal with
         | |- context [match Datetime.sub ?a ?b with _ => _ end] =>
             destruct (Datetime.sub a b) eqn:?;
             cbn [fst snd queries tick count_query record_log]
         | |- context [match db ?e ?c ?k with _ => _ end] =>
             destruct (db e c k) eqn:?;
             cbn [fst snd queries tick count_query record_log]
         end.

(** Once a counting operation has failed, none follows it. *)
Lemma get_stats_stops_at_failure env s k e :
  db env user_activity_collection (queries s + k) = inl e ->
  (queries (get_stats env s).2 <= queries s + k + 1)%nat.
Proof.
  intros Hk. revert Hk. run_stats; intros Hk;
    do 6 (destruct k as [|k];
          [rewrite ?Nat.add_succ_r, ?Nat.add_0_r in Hk;
           first [congruence|lia]|]);
    lia.
Qed.

(** While the counting operations succeed and no cutoff overflows, the
    next one is issued. *)
Lemma get_stats_issues_next env s k :
  in_range (micros (clock env (ticks s))) = true ->
  365 * US_PER_DAY <= micros (clock env (ticks s)) ->
  (k < 6)%nat ->
  (∀ j, (j < k)%nat ->
        ∃ docs, db env user_activity_collection (queries s + j) = inr docs) ->
  (queries s + k + 1 <= queries (get_stats env s).2)%nat.
Proof.
  intros Hnow Hyear Hk Hpre.
  assert (in_range (micros (clock env (ticks s)) - 365 * US_PER_DAY) = true)
    as H365.
  { revert Hnow. unfold in_range, US_PER_DAY, US_PER_SECOND, MAXORDINAL in *.
    rewrite !andb_true_iff, !Z.leb_le, !Z.ltb_lt. lia. }
  pose proof (sub_td_days _ _ H365) as E365.
  pose proof (sub_td_days _ 30
                (in_range_earlier _ 365 30 ltac:(lia) Hnow H365)) as E30.
  pose proof (sub_td_days _ 7
                (in_range_earlier _ 365 7 ltac:(lia) Hnow H365)) as E7.
  pose proof (sub_td_days _ 1
                (in_range_earlier _ 365 1 ltac:(lia) Hnow H365)) as E1.
  cbv [get_stats guard_handler get_stats_body mbind M_bind utcnow
       sub_timedelta count_documents db_read LOGGER_info mret M_ret raise].
  change (td_weeks 1) with (td_days 7).
  rewrite E1, E7, E30, E365.
  cbn [fst snd queries tick count_query record_log].
  repeat match goal with
         | |- context [match db ?e ?c ?n with _ => _ end] =>
             destruct (db e c n) eqn:?;
             cbn [fst snd queries tick count_query record_log]
         end;
    do 6 (try destruct k as [|k]); try lia;
    first
      [ destruct (Hpre 0%nat ltac:(lia)) as [? Hd];
        rewrite ?Nat.add_succ_r, ?Nat.add_0_r in Hd; congruence
      | destruct (Hpre 1%nat ltac:(lia)) as [? Hd];
        rewrite ?Nat.add_succ_r, ?Nat.add_0_r in Hd; congruence
      | destruct (Hpre 2%nat ltac:(lia)) as [? Hd];
        rewrite ?Nat.add_succ_r, ?Nat.add_0_r in Hd; congruence
      | destruct (Hpre 3%nat ltac:(lia)) as [? Hd];
        rewrite ?Nat.add_succ_r, ?Nat.add_0_r in Hd; congruence
      | destruct (Hpre 4%nat ltac:(lia)) as [? Hd];
        rewrite ?Nat.add_succ_r, ?Nat.add_0_r in Hd; congruence ].
Qed.

(** X11: the page handler issues no database operation; the ban list and
    the admin list issue exactly one, whether they succeed or fail; the
    stats handler issues at most six, six exactly when it answers, none
    after one that failed, and (for a clock reading whose cutoffs do not
    overflow) the next one as long as the earlier ones succeeded: it stops
    at the first failure. *)
Theorem database_operations_per_request env s :
  queries (get_index env s).2 = queries s
  ∧ queries (get_banlist env s).2 = S (queries s)
  ∧ queries (get_adminlist env s).2 = S (queries s)
  ∧ (queries s <= queries (get_stats env s).2 <= queries s + 6)%nat
  ∧ ((∃ r, (get_stats env s).1 = Returned r)
     -> queries (get_stats env s).2 = (queries s + 6)%nat)
  ∧ (∀ k e, db env user_activity_collection (queries s + k) = inl e ->
            (queries (get_stats env s).2 <= queries s + k + 1)%nat)
  ∧ (in_range (micros (clock env (ticks s))) = true ->
     365 * US_PER_DAY <= micros (clock env (ticks s)) ->
     ∀ k, (k < 6)%nat ->
          (∀ j, (j < k)%nat ->
                ∃ docs,
                  db env user_activity_collection (queries s + j) = inr docs) ->
          (queries s + k + 1 <= queries (get_stats env s).2)%nat).
Proof.
  split; [|split; [|split; [|split; [|split; [|split]]]]].
  - unfold get_index, read_index. by destruct (index_html env) as [[]|].
  - unfold get_banlist.
    destruct (guard_handler_queries "Error retrieving banlist: "
                "Failed to retrieve banlist" get_banlist_body env s) as [-> _].
    destruct (reads_get_banlist_body env s) as [Hb _]. lia.
  - unfold get_adminlist.
    destruct (guard_handler_queries "Error retrieving adminlist: "
                "Failed to retrieve adminlist" get_adminlist_body env s)
      as [-> _].
    destruct (reads_get_adminlist_body env s) as [Ha _]. lia.
  - unfold get_stats.
    destruct (guard_handler_queries "Error retrieving stats: "
                "Failed to retrieve stats" get_stats_body env s) as [-> _].
    destruct (reads_get_stats_body env s) as [Hs _]. lia.
  - unfold get_stats.
    destruct (guard_handler_queries "Error retrieving stats: "
                "Failed to retrieve stats" get_stats_body env s) as [-> Hret].
    destruct (reads_get_stats_body env s) as [_ Hs6].
    intros [r Hr]. by apply (Hs6 r), Hret.
  - intros k e. apply get_stats_stops_at_failure.
  - intros Hnow Hyear k. by apply get_stats_issues_next.
Qed.

Lemma database_operations_per_request_witness :
  queries (get_stats Example.env Example.s0).2 = 6%nat
  ∧ (queries (get_stats Example.env_down Example.s0).2 <= 1)%nat
  ∧ (1 <= queries (get_stats Example.env_down Example.s0).2)%nat.
Proof.
  destruct (database_operations_per_request Example.env Example.s0)
    as (_ & _ & _ & _ & Hsix & _).
  destruct (database_operations_per_request Example.env_down Example.s0)
    as (_ & _ & _ & _ & _ & Hstop & Hnext).
  split; [|split].
  - apply Hsix. eexists. vm_compute. reflexivity.
  - apply (Hstop 0%nat (OtherException "connection refused")). reflexivity.
  - apply (Hnext ltac:(vm_compute; reflexivity)
                 ltac:(vm_compute; discriminate) 0%nat ltac:(lia)).
    intros j Hj. lia.
Defined.

(** ** Module initialisation *)

Lemma open_database_inr lib what url st name st' :
  open_database lib what url st = (inr name, st')
  ↔ opens lib url name ∧ st' = call_client url st.
Proof.
  unfold open_database, first_app_name, opens, names_database, falsy.
  destruct (parse_qs_query lib url) as [e|query_params].
  { split; [done|]. by intros [((qp & rest & ? & _) & _) _]. }
  destruct (query_params !! "appName") as [[|v rest]|] eqn:Hq.
  - split; [done|]. intros [((qp & r & [= <-] & Hl & _) & _) _]. congruence.
  - case_bool_decide as Hv.
    + split; [done|].
      intros [((qp & r & [= <-] & Hl & Hne) & _) _]. congruence.
    + simpl. split.
      * destruct (AsyncIOMotorClient lib url); [done|].
        destruct (get_database lib url v) eqn:Hg; [done|].
        intros [= <- <-]. eauto 10.
      * intros [((qp & r & [= <-] & Hl & Hne) & -> & Hg) ->].
        assert (v = name) as -> by congruence. by rewrite Hg.
  - split; [done|]. intros [((qp & r & [= <-] & Hl & _) & _) _]. congruence.
Qed.

Lemma open_database_calls lib what url st :
  (open_database lib what url st).2 = st
  ∨ ((open_database lib what url st).2 = call_client url st
     ∧ ∃ name, names_database lib url name).
Proof.
  unfold open_database, first_app_name, names_database, falsy.
  destruct (parse_qs_query lib url) as [e|query_params]; [by left|].
  destruct (query_params !! "appName") as [[|v rest]|] eqn:Hq;
    [by left| |by left].
  case_bool_decide as Hv; [by left|]. right. split.
  - simpl. destruct (AsyncIOMotorClient lib url); [done|].
    by destruct (get_database lib url v).
  - eauto 10.
Qed.

(** X12: importing the module succeeds with database names [(n1, n2)]
    exactly when each connection string parses, has [n1] (resp. [n2]) as the
    first value of its [appName] parameter, that value is not empty, and the
    driver accepts the string and the name. *)
Theorem module_init_returns_iff lib MONGO_URL DATABASE_URL st n1 n2 :
  (module_init lib MONGO_URL DATABASE_URL st).1 = inr (n1, n2)
  ↔ opens lib MONGO_URL n1 ∧ opens lib DATABASE_URL n2.
Proof.
  unfold module_init, logged_block.
  destruct (open_database lib "MONGO_URL" MONGO_URL _) as [[e|m] st1] eqn:H1.
  - split; [done|]. intros [Ho _].
    assert (open_database lib "MONGO_URL" MONGO_URL
              (init_info "Creating MONGO_CLIENT From MONGO_URL" st)
            = (inr n1, call_client MONGO_URL
                         (init_info "Creating MONGO_CLIENT From MONGO_URL" st)))
      as H1' by by apply open_database_inr.
    congruence.
  - apply open_database_inr in H1 as [Hm ->].
    destruct (open_database lib "DATABASE_URL" DATABASE_URL _)
      as [[e|d] st2] eqn:H2.
    + split; [done|]. intros [_ Ho].
      match type of H2 with
      | open_database _ _ _ ?st0 = _ =>
          assert (open_database lib "DATABASE_URL" DATABASE_URL st0
                  = (inr n2, call_client DATABASE_URL st0)) as H2'
            by by apply open_database_inr
      end.
      congruence.
    + apply open_database_inr in H2 as [Hd ->]. simpl. split.
      * by intros [= <- <-].
      * intros [Hm' Hd'].
        destruct Hm as ((q1 & r1 & P1 & L1 & _) & _),
                 Hm' as ((q1' & r1' & P1' & L1' & _) & _),
                 Hd as ((q2 & r2 & P2 & L2 & _) & _),
                 Hd' as ((q2' & r2' & P2' & L2' & _) & _).
        repeat f_equal; congruence.
Qed.

(** X13: a client is only ever constructed from a connection string that
    names a database, the first client before the second, and the second
    only after the first database was opened. *)
Theorem module_init_client_calls lib MONGO_URL DATABASE_URL st :
  ∃ calls,
    client_calls (module_init lib MONGO_URL DATABASE_URL st).2
    = (client_calls st ++ calls)%list
    ∧ (calls = []
       ∨ (calls = [MONGO_URL] ∧ ∃ name, names_database lib MONGO_URL name)
       ∨ (calls = [MONGO_URL; DATABASE_URL]
          ∧ (∃ name, opens lib MONGO_URL name)
          ∧ ∃ name, names_database lib DATABASE_URL name)).
Proof.
  unfold module_init, logged_block.
  match goal with
  | |- context [open_database lib "MONGO_URL" MONGO_URL ?st0] =>
      pose proof (open_database_calls lib "MONGO_URL" MONGO_URL st0) as C1;
      destruct (open_database lib "MONGO_URL" MONGO_URL st0)
        as [[e|m] st1] eqn:H1
  end.
  - simpl in *. destruct C1 as [->|[-> Hname]].
    + exists []. simpl. by rewrite app_nil_r; auto.
    + exists [MONGO_URL]. simpl. auto.
  - apply open_database_inr in H1 as [Hm ->]. clear C1.
    match goal with
    | |- context [open_database lib "DATABASE_URL" DATABASE_URL ?st0] =>
        pose proof (open_database_calls lib "DATABASE_URL" DATABASE_URL st0)
          as C2;
        destruct (open_database lib "DATABASE_URL" DATABASE_URL st0)
          as [[e|d] st2] eqn:H2
    end.
    + simpl in *. destruct C2 as [->|[-> Hname]].
      * exists [MONGO_URL]. simpl. split; [done|].
        right. left. split; [done|]. destruct Hm as [Hn _]. eauto.
      * exists [MONGO_URL; DATABASE_URL]. simpl.
        rewrite <- app_assoc. split; [done|]. right. right. eauto.
    + apply open_database_inr in H2 as [Hd ->].
      exists [MONGO_URL; DATABASE_URL]. simpl.
      rewrite <- app_assoc. split; [done|]. right. right.
      destruct Hd as [Hn _]. eauto.
Qed.

(** On the example connection strings the module opens databases [bot] and
    [admin]; without [appName] in the first string it stops before any
    client exists. *)
Example module_init_example :
  (module_init Scenario.lib "mongodb://a/?appName=bot&appName=x"
     "mongodb://b/?appName=admin" Scenario.init0).1 = inr ("bot", "admin")
  ∧ module_init Scenario.lib "mongodb://c/" "mongodb://b/?appName=admin"
      Scenario.init0
    = (inl (ValueError
              "No database name found in MONGO_URL (missing 'appName' query param)"),
       mk_InitState
         [(INFO, "Creating MONGO_CLIENT From MONGO_URL");
          (ERROR, "Failed to create MONGO_CLIENT: No database name found in MONGO_URL (missing 'appName' query param)")]
         []).
Proof. split; vm_compute; reflexivity. Qed.
